(** * Matrix <-> Zulip bridge: a shallow embedding of [matrix_bridge.py]

    The file embeds the two relay callbacks of
    [zulip/integrations/matrix/matrix_bridge.py], the content renderer
    [get_message_content_from_event] and the supervisor loop of the
    [__main__] block, and proves the properties that the specification
    states about them.

    Python dictionaries are finite maps from strings to Python values,
    exceptions are explicit results, and the calls to the two client
    libraries are recorded in a trace of effects. *)

From Stdlib Require Import ZArith.
From stdpp Require Import gmap strings list.

Set Warnings "-register-all".
Open Scope string_scope.

(** ** Python values *)

(** The JSON-shaped values that the events of both platforms carry. *)
Inductive pyval : Type :=
| VNone
| VBool (b : bool)
| VInt (z : Z)
| VStr (s : string)
| VList (l : list pyval)
| VDict (d : gmap string pyval).

(** The arguments of a raised exception and the exceptions themselves.
    [MatrixRequestError] is the class imported from [matrix_client.api];
    [Exception] is the builtin base class that the bridge raises itself;
    [OtherError] stands for any further class a collaborator may raise. *)
Inductive pyexc : Type :=
| KeyError (key : string)
| TypeError (msg : string)
| UnboundLocalError (var : string)
| MatrixRequestError (code : Z) (content : string)
| Exception (arg : exc_arg)
| OtherError (cls : string)
with exc_arg : Type :=
| ArgValue (v : pyval)
| ArgException (e : pyexc).

(** The result of evaluating a fallible expression. *)
Inductive result (A : Type) : Type :=
| Return (a : A)
| Raise (e : pyexc).
Arguments Return {A} a.
Arguments Raise {A} e.

#[export] Instance result_ret : MRet result := fun A a => Return a.
#[export] Instance result_bind : MBind result := fun A B f r =>
  match r with
  | Return a => f a
  | Raise e => Raise e
  end.

(** [v == s] for a string literal or a configured string [s]. *)
Definition py_eq_str (v : pyval) (s : string) : bool :=
  match v with
  | VStr t => bool_decide (t = s)
  | _ => false
  end.

(** [d[key]] on a dictionary. *)
Definition getitem (d : gmap string pyval) (key : string) : result pyval :=
  match d !! key with
  | Some v => Return v
  | None => Raise (KeyError key)
  end.

(** [v[key]] on an arbitrary value with a string key: only dictionaries
    can be indexed by a string; the other values raise [TypeError] with
    the text of CPython 3. *)
Definition subscript (v : pyval) (key : string) : result pyval :=
  match v with
  | VDict d => getitem d key
  | VList _ => Raise (TypeError "list indices must be integers or slices, not str")
  | VStr _ => Raise (TypeError "string indices must be integers, not 'str'")
  | VNone => Raise (TypeError "'NoneType' object is not subscriptable")
  | VBool _ => Raise (TypeError "'bool' object is not subscriptable")
  | VInt _ => Raise (TypeError "'int' object is not subscriptable")
  end.

(** ** Strings *)

(** [needle in hay] on strings: [needle] occurs somewhere in [hay]. *)
Fixpoint str_contains (needle hay : string) : bool :=
  String.prefix needle hay ||
  match hay with
  | EmptyString => false
  | String _ hay' => str_contains needle hay'
  end.

(** [key in v] for a string [key]: a key of a dictionary, an element of a
    list, a substring of a string; the other values are not iterable. *)
Definition py_contains_str (key : string) (v : pyval) : result bool :=
  match v with
  | VDict d => Return (bool_decide (is_Some (d !! key)))
  | VList l => Return (existsb (fun x => py_eq_str x key) l)
  | VStr s => Return (str_contains key s)
  | VNone => Raise (TypeError "argument of type 'NoneType' is not iterable")
  | VBool _ => Raise (TypeError "argument of type 'bool' is not iterable")
  | VInt _ => Raise (TypeError "argument of type 'int' is not iterable")
  end.

(** [s.replace(old, new)] scans [s] from the left; at an occurrence of
    [old] it emits [new] and skips the occurrence.  [skip] counts the
    characters of the current occurrence that remain to be skipped. *)
Fixpoint replace_from (old new : string) (skip : nat) (s : string) : string :=
  match s with
  | EmptyString => EmptyString
  | String c s' =>
      match skip with
      | S k => replace_from old new k s'
      | O =>
          if String.prefix old s
          then new +:+ replace_from old new (String.length old - 1) s'
          else String c (replace_from old new 0 s')
      end
  end.

(** With an empty [old], Python inserts [new] around every character. *)
Fixpoint intersperse (new s : string) : string :=
  match s with
  | EmptyString => new
  | String c s' => new +:+ String c (intersperse new s')
  end.

Definition str_replace (old new s : string) : string :=
  match old with
  | EmptyString => intersperse new s
  | _ => replace_from old new 0 s
  end.

(** ** Configuration and collaborators *)

(** [config["zulip"]] and [config["matrix"]] of [matrix_bridge_config]. *)
Record zulip_config : Type := {
  zc_email : string;
  zc_api_key : string;
  zc_site : string;
  zc_stream : string;
  zc_subject : string
}.

Record matrix_config : Type := {
  mc_host : string;
  mc_username : string;
  mc_password : string;
  mc_room_id : string
}.

(** What the bridge uses of a [zulip.Client]: its [email] attribute and
    [send_message], which returns the acknowledgment or raises. *)
Record zulip_client : Type := {
  client_email : string;
  client_send_message : gmap string pyval -> result pyval
}.

(** What the bridge uses of a joined Matrix room: [send_text], which
    returns or raises. *)
Record matrix_room : Type := {
  room_send_text : string -> result unit
}.

(** ** Effects *)

(** The observable actions of the bridge, in the order they happen. *)
Inductive effect : Type :=
| Print (text : string)
| PrintExc (e : pyexc)
| ZulipSendMessage (request : gmap string pyval)
| MatrixSendText (text : string)
| Sleep (delay : nat).

(** A computation yields a result and the trace of its effects. *)
Definition io (A : Type) : Type := (result A * list effect)%type.

#[export] Instance io_ret : MRet io := fun A a => (Return a, []).
#[export] Instance io_bind : MBind io := fun A B f m =>
  match m with
  | (Return a, t) => let '(r, t') := f a in (r, (t ++ t')%list)
  | (Raise e, t) => (Raise e, t)
  end.

Definition lift {A : Type} (r : result A) : io A := (r, []).
Definition emit (e : effect) : io unit := (Return tt, [e]).
Definition perform {A : Type} (e : effect) (r : result A) : io A := (r, [e]).

Definition trace {A : Type} (m : io A) : list effect := snd m.

(** The requests sent to Zulip and the texts sent to Matrix in a trace. *)
Definition zulip_sends (t : list effect) : list (gmap string pyval) :=
  omap (fun e => match e with ZulipSendMessage r => Some r | _ => None end) t.
Definition matrix_sends (t : list effect) : list string :=
  omap (fun e => match e with MatrixSendText s => Some s | _ => None end) t.

(** ** The bridge *)

Section Bridge.

(** [str(v)] for a value [v] that is not a string: the builtin is not
    part of the bridge, and no property below depends on what it
    prints. *)
Variable str_of_other : pyval -> string.

(** ["{0}".format(v)]: a string is inserted as it is, any other value is
    inserted as [str(v)]. *)
Definition py_format (v : pyval) : string :=
  match v with
  | VStr s => s
  | _ => str_of_other v
  end.

(** [zulip_to_matrix_username], lines 20-21. *)
Definition zulip_to_matrix_username (full_name : pyval) (site : string) : string :=
  "@**" +:+ py_format full_name +:+ "**:" +:+ site.

(** [get_message_content_from_event], lines 55-66.  The local variable
    [content] is [None] while no branch has assigned it; reading it then
    raises [UnboundLocalError]. *)
Definition get_message_content_from_event (event : gmap string pyval)
  : result pyval :=
  content ←
    (ty ← getitem event "type";
     if py_eq_str ty "m.room.member" then
       membership ← getitem event "membership";
       if py_eq_str membership "join" then
         sender ← getitem event "sender";
         Return (Some (VStr (py_format sender +:+ " joined")))
       else
         membership ← getitem event "membership";
         if py_eq_str membership "leave" then
           sender ← getitem event "sender";
           Return (Some (VStr (py_format sender +:+ " quit")))
         else Return None
     else
       ty ← getitem event "type";
       if py_eq_str ty "m.room.message" then
         c ← getitem event "content";
         msgtype ← subscript c "msgtype";
         is_text ←
           (if py_eq_str msgtype "m.text" then Return true
            else
              c ← getitem event "content";
              msgtype ← subscript c "msgtype";
              Return (py_eq_str msgtype "m.emote"));
         if is_text : bool then
           sender ← getitem event "sender";
           c ← getitem event "content";
           body ← subscript c "body";
           Return (Some (VStr (py_format sender +:+ ": " +:+ py_format body)))
         else Return None
       else
         ty ← getitem event "type";
         Return (Some ty));
  match content with
  | Some c => Return c
  | None => Raise (UnboundLocalError "content")
  end.

(** The marker of the bridge's own Matrix identity, line 31. *)
Definition zulip_bot_user (mcfg : matrix_config) : string :=
  "@" +:+ mc_username mcfg +:+ ":matrix.org".

(** The loop-prevention filter, lines 34-35; [or] evaluates its second
    operand only when the first is false. *)
Definition not_from_zulip_bot (mcfg : matrix_config)
    (event : gmap string pyval) : result bool :=
  c ← getitem event "content";
  has_body ← py_contains_str "body" c;
  if negb has_body then Return true
  else
    sender ← getitem event "sender";
    Return (negb (py_eq_str sender (zulip_bot_user mcfg))).

(** The dictionary passed to [send_message], lines 39-45. *)
Definition zulip_request (client : zulip_client) (zcfg : zulip_config)
    (content : pyval) : gmap string pyval :=
  list_to_map
    [("sender", VStr (client_email client));
     ("type", VStr "stream");
     ("to", VStr (zc_stream zcfg));
     ("subject", VStr (zc_subject zcfg));
     ("content", content)].

(** The [try] block of lines 38-48: a [MatrixRequestError] raised by the
    call is replaced by [Exception(e)], anything else passes through. *)
Definition try_send_message (client : zulip_client)
    (request : gmap string pyval) : result pyval :=
  match client_send_message client request with
  | Raise (MatrixRequestError code content) =>
      Raise (Exception (ArgException (MatrixRequestError code content)))
  | r => r
  end.

(** [_matrix_to_zulip], the callback returned by [matrix_to_zulip],
    lines 25-51. *)
Definition matrix_to_zulip (client : zulip_client) (zcfg : zulip_config)
    (mcfg : matrix_config) (event : gmap string pyval) : io unit :=
  content ← lift (get_message_content_from_event event);
  forward ← lift (not_from_zulip_bot mcfg event);
  if forward : bool then
    let request := zulip_request client zcfg content in
    ack ← perform (ZulipSendMessage request) (try_send_message client request);
    status ← lift (subscript ack "result");
    if negb (py_eq_str status "success") then
      msg ← lift (subscript ack "msg");
      lift (Raise (Exception (ArgValue msg)))
    else mret tt
  else mret tt.

(** [site_without_http], line 69. *)
Definition site_without_http (zcfg : zulip_config) : string :=
  str_replace "http://" "" (str_replace "https://" "" (zc_site zcfg)).

(** [_zulip_to_matrix], the callback returned by [zulip_to_matrix],
    lines 71-84.  The four tests are evaluated before the [if]. *)
Definition zulip_to_matrix (zcfg : zulip_config) (room : matrix_room)
    (msg : gmap string pyval) : io unit :=
  ty ← lift (getitem msg "type");
  let isa_stream := py_eq_str ty "stream" in
  sender_email ← lift (getitem msg "sender_email");
  let not_from_bot := negb (py_eq_str sender_email (zc_email zcfg)) in
  recipient ← lift (getitem msg "display_recipient");
  let in_the_specified_stream := py_eq_str recipient (zc_stream zcfg) in
  subject ← lift (getitem msg "subject");
  let at_the_specified_subject := py_eq_str subject (zc_subject zcfg) in
  if isa_stream && not_from_bot && in_the_specified_stream
     && at_the_specified_subject then
    full_name ← lift (getitem msg "sender_full_name");
    let matrix_username :=
      zulip_to_matrix_username full_name (site_without_http zcfg) in
    content ← lift (getitem msg "content");
    let matrix_text := matrix_username +:+ ": " +:+ py_format content in
    emit (Print matrix_text);;
    perform (MatrixSendText matrix_text) (room_send_text room matrix_text)
  else mret tt.

End Bridge.

(** ** The supervisor *)

(** The interface of the object bound to [backoff] in the [__main__]
    block: [keep_going] guards the loop (line 97) and [fail] is called at
    the end of every iteration (line 118).  [fail] is given the time for
    which the attempt was sustained and the random draw of the policy,
    and yields the next state and the delay it sleeps for. *)
Class Backoff (B : Type) : Type := {
  keep_going : B -> bool;
  fail : B -> nat -> nat -> B * nat
}.

(** [zulip.RandomExponentialBackoff] and its base class
    [zulip.CountingBackoff] belong to the [zulip] package and not to the
    bridge file.  The object counts the failures in a row, up to
    [maximum_retries]; a call that comes more than
    [timeout_success_equivalent] after the last failure takes the last
    run for a success and starts counting afresh.

    Times are whole seconds.  [since_last_attempt] is the time that has
    passed since [last_attempt_time] was set, at the moment the loop
    next calls the object; it is [None] while [last_attempt_time] is
    still 0. *)
Record RandomExponentialBackoff : Type := {
  number_of_retries : nat;
  maximum_retries : nat;
  timeout_success_equivalent : option nat;
  delay_cap : nat;
  since_last_attempt : option nat
}.

(** [RandomExponentialBackoff(timeout_success_equivalent=timeout)], as
    line 96 constructs it: the other parameters keep their defaults. *)
Definition new_backoff (timeout : nat) : RandomExponentialBackoff :=
  {| number_of_retries := 0;
     maximum_retries := 10;
     timeout_success_equivalent := Some timeout;
     delay_cap := 90;
     since_last_attempt := None |}.

(** [_check_success_timeout], called when a further [passed] seconds
    have gone by: the number of retries it leaves. *)
Definition check_success_timeout (b : RandomExponentialBackoff)
    (passed : nat) : nat :=
  match timeout_success_equivalent b, since_last_attempt b with
  | Some timeout, Some since =>
      if Nat.ltb timeout (since + passed) then 0 else number_of_retries b
  | _, _ => number_of_retries b
  end.

(** [keep_going]: the check, then [number_of_retries < maximum_retries].
    The reset that the check may store is not kept here: [fail] repeats
    the check later on, and resets again. *)
Definition reb_keep_going (b : RandomExponentialBackoff) : bool :=
  Nat.ltb (check_success_timeout b 0) (maximum_retries b).

(** [CountingBackoff.fail]: the check, then one more retry, capped. *)
Definition counting_fail (b : RandomExponentialBackoff) (sustained : nat)
  : nat :=
  Nat.min (check_success_timeout b sustained + 1) (maximum_retries b).

(** [int(2 ** (number_of_retries / 2.0 - 1)) + 1]: the integer part of
    the power is that of half the square root of [2 ** retries]. *)
Definition delay_scale (retries : nat) : nat :=
  (Nat.sqrt (2 ^ retries) / 2 + 1)%nat.

(** [RandomExponentialBackoff.fail]: it counts the failure and sleeps
    for [min(delay_scale + random.randint(1, delay_scale), delay_cap)];
    [jitter] is the value that [random.randint] returned.  The state it
    yields is the one the loop meets after the sleep. *)
Definition reb_fail (b : RandomExponentialBackoff) (sustained jitter : nat)
  : RandomExponentialBackoff * nat :=
  let retries := counting_fail b sustained in
  let delay := Nat.min (delay_scale retries + jitter) (delay_cap b) in
  ({| number_of_retries := retries;
      maximum_retries := maximum_retries b;
      timeout_success_equivalent := timeout_success_equivalent b;
      delay_cap := delay_cap b;
      since_last_attempt := Some delay |},
   delay).

#[export] Instance reb_backoff : Backoff RandomExponentialBackoff := {
  keep_going := reb_keep_going;
  fail := reb_fail
}.

(** How far the [try] block of lines 99-115 got: it stopped while the
    clients were set up (lines 100-109), in [start_listener_thread]
    (line 112) or in [call_on_each_message] (line 115). *)
Inductive stage : Type :=
| Connecting
| StartingListener
| HandlingMessages.

(** What the environment does to one attempt: the [try] block raises an
    exception at some stage, [call_on_each_message] returns, or the
    process receives SIGINT and [die] exits it. *)
Inductive attempt : Type :=
| Fails (at_stage : stage) (e : pyexc) (sustained jitter : nat)
| Returns (sustained jitter : nat)
| Interrupted (at_stage : stage).

(** Where the supervisor is once the known attempts are used up. *)
Inductive status : Type :=
| Attempting
| Stopped
| Exited (code : Z).

Definition stage_prints (s : stage) : list effect :=
  match s with
  | Connecting => []
  | StartingListener => [Print "Starting listener thread on Matrix client"]
  | HandlingMessages =>
      [Print "Starting listener thread on Matrix client";
       Print "Starting message handler on Zulip client"]
  end.

(** The loop of lines 97-118, run against the outcomes of the successive
    attempts. *)
Fixpoint supervise {B : Type} `{Backoff B} (backoff : B)
    (attempts : list attempt) : status * list effect :=
  if keep_going backoff then
    match attempts with
    | [] => (Attempting, [Print "Starting matrix mirroring bot"])
    | Fails s e sustained jitter :: rest =>
        let '(backoff', delay) := fail backoff sustained jitter in
        let '(st, t) := supervise backoff' rest in
        (st, Print "Starting matrix mirroring bot" :: stage_prints s
               ++ [PrintExc e; Sleep delay] ++ t)%list
    | Returns sustained jitter :: rest =>
        let '(backoff', delay) := fail backoff sustained jitter in
        let '(st, t) := supervise backoff' rest in
        (st, Print "Starting matrix mirroring bot"
               :: stage_prints HandlingMessages ++ [Sleep delay] ++ t)%list
    | Interrupted s :: _ =>
        (Exited 1, Print "Starting matrix mirroring bot" :: stage_prints s)
    end
  else (Stopped, []).

Definition is_failure (a : attempt) : bool :=
  match a with Fails _ _ _ _ => true | _ => false end.
Definition is_sleep (e : effect) : bool :=
  match e with Sleep _ => true | _ => false end.
Definition is_start (e : effect) : bool :=
  match e with
  | Print text => bool_decide (text = "Starting matrix mirroring bot")
  | _ => false
  end.

(** The delays slept in a trace, in order. *)
Definition sleeps (t : list effect) : list nat :=
  omap (fun e => match e with Sleep delay => Some delay | _ => None end) t.

(** An attempt that raises within 210 seconds: with the sleep before
    it, of at most [delay_cap] = 90 seconds, it ends within the 300
    seconds of line 96 after the failure before it. *)
Definition is_quick_failure (a : attempt) : bool :=
  match a with
  | Fails _ _ sustained _ => Nat.leb sustained 210
  | _ => false
  end.

(** ** Sample configuration, collaborators and events *)

(** The samples only format strings, so the rendering of other values is
    never consulted. *)
Definition str_unused : pyval -> string := fun _ => "".

Definition sample_zulip_config : zulip_config :=
  {| zc_email := "bridge-bot@host";
     zc_api_key := "secret";
     zc_site := "https://host";
     zc_stream := "mirror";
     zc_subject := "general" |}.

Definition sample_matrix_config : matrix_config :=
  {| mc_host := "https://matrix.org";
     mc_username := "bot";
     mc_password := "secret";
     mc_room_id := "!abc:host" |}.

(** The same bot on a homeserver of its own. *)
Definition other_host_matrix_config : matrix_config :=
  {| mc_host := "https://example.org";
     mc_username := "bot";
     mc_password := "secret";
     mc_room_id := "!abc:example.org" |}.

Definition ack_success : pyval :=
  VDict (list_to_map [("result", VStr "success"); ("msg", VStr "")]).
Definition ack_invalid_key : pyval :=
  VDict (list_to_map [("result", VStr "error"); ("msg", VStr "Invalid API key")]).

(** Clients logged in as the configured bot, as line 100 constructs them. *)
Definition accepting_client : zulip_client :=
  {| client_email := "bridge-bot@host";
     client_send_message := fun _ => Return ack_success |}.
Definition rejecting_client : zulip_client :=
  {| client_email := "bridge-bot@host";
     client_send_message := fun _ => Return ack_invalid_key |}.
Definition forbidden_client : zulip_client :=
  {| client_email := "bridge-bot@host";
     client_send_message := fun _ => Raise (MatrixRequestError 403 "Forbidden") |}.

Definition sample_room : matrix_room :=
  {| room_send_text := fun _ => Return tt |}.

(** "alice" posts "hello" in stream "mirror", topic "general". *)
Definition stream_message : gmap string pyval :=
  list_to_map
    [("type", VStr "stream");
     ("sender_email", VStr "alice@host");
     ("sender_full_name", VStr "alice");
     ("display_recipient", VStr "mirror");
     ("subject", VStr "general");
     ("content", VStr "hello")].

(** The same fields on a message that is not a stream message. *)
Definition non_stream_message : gmap string pyval :=
  <["type" := VStr "private"]> stream_message.

(** The bridge's own post, as Zulip delivers it back. *)
Definition own_message : gmap string pyval :=
  <["sender_email" := VStr "bridge-bot@host"]> stream_message.

Definition text_event (sender msgtype body : string) : gmap string pyval :=
  list_to_map
    [("type", VStr "m.room.message");
     ("sender", VStr sender);
     ("content",
      VDict (list_to_map [("msgtype", VStr msgtype); ("body", VStr body)]))].

(** "bob" says "hi" in the room. *)
Definition bob_event : gmap string pyval :=
  text_event "@bob:matrix.org" "m.text" "hi".


(** The same echo on the bot's own homeserver. *)
Definition other_host_echo_event : gmap string pyval :=
  text_event "@bot:example.org" "m.text" "@**alice**:host: hello".

(** An image posted under the bot's identity. *)
Definition bot_image_event : gmap string pyval :=
  text_event "@bot:matrix.org" "m.image" "cat.png".

Definition member_event (sender membership : string) : gmap string pyval :=
  list_to_map
    [("type", VStr "m.room.member");
     ("sender", VStr sender);
     ("membership", VStr membership);
     ("content", VDict (list_to_map [("membership", VStr membership)]))].


Definition bob_leave_event : gmap string pyval :=
  member_event "@bob:matrix.org" "leave".

Definition bob_invite_event : gmap string pyval :=
  member_event "@bob:matrix.org" "invite".

(** A redacted message: its content has been emptied. *)
Definition redacted_event : gmap string pyval :=
  list_to_map
    [("type", VStr "m.room.message");
     ("sender", VStr "@bob:matrix.org");
     ("content", VDict ∅)].

Definition topic_event : gmap string pyval :=
  list_to_map
    [("type", VStr "m.room.topic");
     ("sender", VStr "@bob:matrix.org");
     ("content", VDict (list_to_map [("topic", VStr "news")]))].

(** Twelve quick failures in a row. *)
Definition twelve_failures : list attempt :=
  replicate 12 (Fails Connecting (OtherError "ConnectionError") 1 1).

Definition is_print_exc (e : effect) : bool :=
  match e with PrintExc _ => true | _ => false end.

(** A client whose connection is down. *)
Definition unreachable_client : zulip_client :=
  {| client_email := "bridge-bot@host";
     client_send_message := fun _ => Raise (OtherError "ConnectionError") |}.

(** Clients that answer with an acknowledgment of an unexpected shape. *)
Definition empty_ack_client : zulip_client :=
  {| client_email := "bridge-bot@host";
     client_send_message := fun _ => Return (VDict ∅) |}.
Definition terse_ack_client : zulip_client :=
  {| client_email := "bridge-bot@host";
     client_send_message :=
       fun _ => Return (VDict (list_to_map [("result", VStr "error")])) |}.
Definition null_ack_client : zulip_client :=
  {| client_email := "bridge-bot@host";
     client_send_message := fun _ => Return VNone |}.

(** A room that refuses the post. *)
Definition forbidden_room : matrix_room :=
  {| room_send_text := fun _ => Raise (MatrixRequestError 403 "Forbidden") |}.

(** A join event that came without a content field. *)
Definition bare_join_event : gmap string pyval :=
  list_to_map
    [("type", VStr "m.room.member");
     ("sender", VStr "@bob:matrix.org");
     ("membership", VStr "join")].

(** A private message that came without a subject. *)
Definition message_without_subject : gmap string pyval :=
  list_to_map
    [("type", VStr "private");
     ("sender_email", VStr "alice@host");
     ("sender_full_name", VStr "alice");
     ("display_recipient", VList []);
     ("content", VStr "hello")].

(** Messages for the mirrored topic that lack the name or the text. *)
Definition message_without_name : gmap string pyval :=
  delete "sender_full_name" stream_message.
Definition message_without_content : gmap string pyval :=
  delete "content" stream_message.

(** A sustained attempt that breaks, one that returns, a quick failure. *)
Definition mixed_attempts : list attempt :=
  [Fails HandlingMessages (OtherError "ConnectionError") 400 1;
   Returns 10 1;
   Fails Connecting (OtherError "ConnectionError") 1 2].

(** * Properties *)

(** ** Evaluation lemmas *)

Lemma getitem_Some (d : gmap string pyval) key v :
  d !! key = Some v -> getitem d key = Return v.
Proof. intros Hd. unfold getitem. now rewrite Hd. Qed.

Lemma getitem_None (d : gmap string pyval) key :
  d !! key = None -> getitem d key = Raise (KeyError key).
Proof. intros Hd. unfold getitem. now rewrite Hd. Qed.

Lemma py_eq_str_refl s : py_eq_str (VStr s) s = true.
Proof. apply bool_decide_eq_true_2. reflexivity. Qed.

Lemma py_eq_str_true v s : py_eq_str v s = true <-> v = VStr s.
Proof.
  split.
  - destruct v; simpl; try discriminate.
    intros Hs. apply bool_decide_eq_true_1 in Hs. now subst.
  - intros ->. apply py_eq_str_refl.
Qed.

Lemma py_eq_str_false v s : py_eq_str v s = false <-> v <> VStr s.
Proof.
  rewrite <- py_eq_str_true. destruct (py_eq_str v s); split; congruence.
Qed.

Lemma result_bind_Return {A B} (f : A -> result B) a :
  (Return a ≫= f) = f a.
Proof. reflexivity. Qed.

Lemma result_bind_Raise {A B} (f : A -> result B) e :
  (Raise e ≫= f) = Raise e.
Proof. reflexivity. Qed.

Lemma io_bind_lift_Return {A B} (f : A -> io B) a :
  (lift (Return a) ≫= f) = f a.
Proof. unfold lift, mbind, io_bind. now destruct (f a). Qed.

Lemma io_bind_lift_Raise {A B} (f : A -> io B) e :
  (lift (Raise e) ≫= f) = (Raise e, []).
Proof. reflexivity. Qed.

Lemma io_bind_perform_Return {A B} (f : A -> io B) eff a :
  (perform eff (Return a) ≫= f) = (fst (f a), eff :: snd (f a)).
Proof. unfold perform, mbind, io_bind. now destruct (f a). Qed.

Lemma io_bind_perform_Raise {A B} (f : A -> io B) eff e :
  (perform eff (Raise e) ≫= f) = (Raise e, [eff]).
Proof. reflexivity. Qed.

(** The tactic rewrites the dictionary lookups that the context knows
    and runs the binds they unblock. *)
Ltac eval_lookups :=
  repeat first
    [ rewrite result_bind_Return
    | rewrite result_bind_Raise
    | rewrite io_bind_lift_Return
    | rewrite io_bind_lift_Raise
    | match goal with
      | Hd : ?d !! ?k = Some _ |- context [getitem ?d ?k] =>
          rewrite (getitem_Some d k _ Hd)
      | Hd : ?d !! ?k = None |- context [getitem ?d ?k] =>
          rewrite (getitem_None d k Hd)
      | Hd : ?d !! ?k = _ |- context [?d !! ?k] => rewrite Hd
      end ].

(** ** Rendering, case by case *)

Section Rendering.

Variable str : pyval -> string.
Variable event : gmap string pyval.

Lemma render_join sender :
  event !! "type" = Some (VStr "m.room.member") ->
  event !! "membership" = Some (VStr "join") ->
  event !! "sender" = Some sender ->
  get_message_content_from_event str event
  = Return (VStr (py_format str sender +:+ " joined")).
Proof.
  intros Hty Hm Hs. unfold get_message_content_from_event.
  eval_lookups. reflexivity.
Qed.

Lemma render_leave sender :
  event !! "type" = Some (VStr "m.room.member") ->
  event !! "membership" = Some (VStr "leave") ->
  event !! "sender" = Some sender ->
  get_message_content_from_event str event
  = Return (VStr (py_format str sender +:+ " quit")).
Proof.
  intros Hty Hm Hs. unfold get_message_content_from_event.
  eval_lookups. reflexivity.
Qed.

Lemma render_other_membership membership :
  event !! "type" = Some (VStr "m.room.member") ->
  event !! "membership" = Some membership ->
  membership <> VStr "join" ->
  membership <> VStr "leave" ->
  get_message_content_from_event str event
  = Raise (UnboundLocalError "content").
Proof.
  intros Hty Hm Hj Hl. unfold get_message_content_from_event.
  apply py_eq_str_false in Hj, Hl.
  eval_lookups. simpl py_eq_str at 1. cbn iota.
  eval_lookups. rewrite Hj. eval_lookups. rewrite Hl. reflexivity.
Qed.

Lemma render_text c msgtype sender body :
  event !! "type" = Some (VStr "m.room.message") ->
  event !! "content" = Some c ->
  subscript c "msgtype" = Return (VStr msgtype) ->
  msgtype = "m.text" \/ msgtype = "m.emote" ->
  event !! "sender" = Some sender ->
  subscript c "body" = Return body ->
  get_message_content_from_event str event
  = Return (VStr (py_format str sender +:+ ": " +:+ py_format str body)).
Proof.
  intros Hty Hc Hmt Hkind Hs Hb. unfold get_message_content_from_event.
  eval_lookups. simpl py_eq_str at 1. cbn iota.
  eval_lookups. simpl py_eq_str at 1. cbn iota.
  eval_lookups. rewrite Hmt. eval_lookups.
  destruct Hkind as [-> | ->]; simpl py_eq_str; cbn iota;
    eval_lookups; rewrite ?Hmt; eval_lookups; simpl py_eq_str; cbn iota;
    eval_lookups; rewrite Hb; reflexivity.
Qed.

Lemma render_other_msgtype c msgtype :
  event !! "type" = Some (VStr "m.room.message") ->
  event !! "content" = Some c ->
  subscript c "msgtype" = Return msgtype ->
  msgtype <> VStr "m.text" ->
  msgtype <> VStr "m.emote" ->
  get_message_content_from_event str event
  = Raise (UnboundLocalError "content").
Proof.
  intros Hty Hc Hmt Ht He. unfold get_message_content_from_event.
  apply py_eq_str_false in Ht, He.
  eval_lookups. simpl py_eq_str at 1. cbn iota.
  eval_lookups. simpl py_eq_str at 1. cbn iota.
  eval_lookups. rewrite Hmt. eval_lookups. rewrite Ht.
  eval_lookups. rewrite He. reflexivity.
Qed.

Lemma render_other_type ty :
  event !! "type" = Some ty ->
  ty <> VStr "m.room.member" ->
  ty <> VStr "m.room.message" ->
  get_message_content_from_event str event = Return ty.
Proof.
  intros Hty Hm Hg. unfold get_message_content_from_event.
  apply py_eq_str_false in Hm, Hg.
  eval_lookups. rewrite Hm. eval_lookups. rewrite Hg. eval_lookups.
  reflexivity.
Qed.

End Rendering.

(** ** The loop-prevention filter and the Matrix callback *)

Section MatrixCallback.

Variable str : pyval -> string.
Variable client : zulip_client.
Variable zcfg : zulip_config.
Variable mcfg : matrix_config.
Variable event : gmap string pyval.

Lemma filter_without_body d :
  event !! "content" = Some (VDict d) ->
  d !! "body" = None ->
  not_from_zulip_bot mcfg event = Return true.
Proof.
  intros Hc Hb. unfold not_from_zulip_bot. eval_lookups.
  unfold py_contains_str. rewrite Hb. reflexivity.
Qed.

Lemma filter_with_body d body sender :
  event !! "content" = Some (VDict d) ->
  d !! "body" = Some body ->
  event !! "sender" = Some sender ->
  not_from_zulip_bot mcfg event
  = Return (negb (py_eq_str sender (zulip_bot_user mcfg))).
Proof.
  intros Hc Hb Hs. unfold not_from_zulip_bot. eval_lookups.
  unfold py_contains_str. rewrite Hb. reflexivity.
Qed.

Lemma callback_render_raises e :
  get_message_content_from_event str event = Raise e ->
  matrix_to_zulip str client zcfg mcfg event = (Raise e, []).
Proof. intros Hr. unfold matrix_to_zulip. rewrite Hr. reflexivity. Qed.

Lemma callback_filter_raises content e :
  get_message_content_from_event str event = Return content ->
  not_from_zulip_bot mcfg event = Raise e ->
  matrix_to_zulip str client zcfg mcfg event = (Raise e, []).
Proof.
  intros Hr Hf. unfold matrix_to_zulip. rewrite Hr, Hf. reflexivity.
Qed.

Lemma callback_drops content :
  get_message_content_from_event str event = Return content ->
  not_from_zulip_bot mcfg event = Return false ->
  matrix_to_zulip str client zcfg mcfg event = (Return tt, []).
Proof.
  intros Hr Hf. unfold matrix_to_zulip. rewrite Hr, Hf. reflexivity.
Qed.

(** Once the filter lets an event through, the callback calls
    [send_message] once, whatever the call answers. *)
Lemma callback_forwards content :
  get_message_content_from_event str event = Return content ->
  not_from_zulip_bot mcfg event = Return true ->
  trace (matrix_to_zulip str client zcfg mcfg event)
  = [ZulipSendMessage (zulip_request client zcfg content)].
Proof.
  intros Hr Hf. unfold matrix_to_zulip. rewrite Hr, Hf.
  rewrite !io_bind_lift_Return.
  destruct (try_send_message client (zulip_request client zcfg content))
    as [ack | e]; [ | reflexivity ].
  rewrite io_bind_perform_Return. unfold trace. simpl snd. f_equal.
  destruct (subscript ack "result") as [status | e]; [ | reflexivity ].
  destruct (negb (py_eq_str status "success")); [ | reflexivity ].
  destruct (subscript ack "msg"); reflexivity.
Qed.

(** The callback never produces anything but Zulip sends. *)
Lemma callback_trace_cases :
  trace (matrix_to_zulip str client zcfg mcfg event) = [] \/
  exists content,
    trace (matrix_to_zulip str client zcfg mcfg event)
    = [ZulipSendMessage (zulip_request client zcfg content)].
Proof.
  destruct (get_message_content_from_event str event) as [content | e] eqn:Hr.
  - destruct (not_from_zulip_bot mcfg event) as [[ | ] | e] eqn:Hf.
    + right. exists content. now apply callback_forwards.
    + left. now rewrite (callback_drops content).
    + left. now rewrite (callback_filter_raises content e).
  - left. now rewrite (callback_render_raises e).
Qed.

End MatrixCallback.

(** ** The Zulip callback *)

Section ZulipCallback.

Variable str : pyval -> string.
Variable zcfg : zulip_config.
Variable room : matrix_room.
Variable msg : gmap string pyval.

(** A message that fails one of the four tests has no effect at all,
    also when a field is missing and the lookup raises. *)
Lemma zulip_callback_skips :
  msg !! "type" <> Some (VStr "stream") \/
  msg !! "sender_email" = Some (VStr (zc_email zcfg)) \/
  msg !! "display_recipient" <> Some (VStr (zc_stream zcfg)) \/
  msg !! "subject" <> Some (VStr (zc_subject zcfg)) ->
  trace (zulip_to_matrix str zcfg room msg) = [].
Proof.
  intros Hskip. unfold zulip_to_matrix, getitem.
  destruct (msg !! "type") as [ty | ]; [ | reflexivity ].
  rewrite io_bind_lift_Return.
  destruct (msg !! "sender_email") as [sender_email | ]; [ | reflexivity ].
  rewrite io_bind_lift_Return.
  destruct (msg !! "display_recipient") as [recipient | ]; [ | reflexivity ].
  rewrite io_bind_lift_Return.
  destruct (msg !! "subject") as [subject | ]; [ | reflexivity ].
  rewrite io_bind_lift_Return.
  destruct (py_eq_str ty "stream") eqn:Hty;
    [ apply py_eq_str_true in Hty | reflexivity ].
  destruct (py_eq_str sender_email (zc_email zcfg)) eqn:Hse;
    [ reflexivity | apply py_eq_str_false in Hse ].
  destruct (py_eq_str recipient (zc_stream zcfg)) eqn:Hre;
    [ apply py_eq_str_true in Hre | reflexivity ].
  destruct (py_eq_str subject (zc_subject zcfg)) eqn:Hsu;
    [ apply py_eq_str_true in Hsu | reflexivity ].
  subst. exfalso.
  destruct Hskip as [Hs | [Hs | [Hs | Hs]]]; congruence.
Qed.

Lemma zulip_callback_relays sender_email full_name content :
  msg !! "type" = Some (VStr "stream") ->
  msg !! "sender_email" = Some sender_email ->
  sender_email <> VStr (zc_email zcfg) ->
  msg !! "display_recipient" = Some (VStr (zc_stream zcfg)) ->
  msg !! "subject" = Some (VStr (zc_subject zcfg)) ->
  msg !! "sender_full_name" = Some full_name ->
  msg !! "content" = Some content ->
  let text :=
    zulip_to_matrix_username str full_name (site_without_http zcfg)
    +:+ ": " +:+ py_format str content in
  zulip_to_matrix str zcfg room msg
  = (room_send_text room text, [Print text; MatrixSendText text]).
Proof.
  intros Hty Hse Hne Hre Hsu Hfn Hco text.
  apply py_eq_str_false in Hne.
  unfold zulip_to_matrix. eval_lookups.
  rewrite !py_eq_str_refl, Hne. simpl andb. cbn iota.
  eval_lookups. fold text.
  unfold emit, perform, mbind, io_bind. reflexivity.
Qed.

End ZulipCallback.

(** ** Replacing in strings *)

Lemma prefix_append p s : String.prefix p (p +:+ s) = true.
Proof.
  induction p as [ | c p IH]; simpl.
  - now destruct s.
  - destruct (Ascii.ascii_dec c c) as [_ | Hc]; [ exact IH | now destruct Hc ].
Qed.

Lemma replace_from_skip old new p s :
  replace_from old new (String.length p) (p +:+ s) = replace_from old new 0 s.
Proof. induction p as [ | c p IH]; simpl; [ reflexivity | exact IH ]. Qed.

Lemma replace_from_absent old new s :
  str_contains old s = false -> replace_from old new 0 s = s.
Proof.
  induction s as [ | c s IH]; [ reflexivity | ].
  intros Habs. cbn [str_contains] in Habs.
  apply orb_false_elim in Habs as [Hpre Hrest].
  cbn [replace_from]. rewrite Hpre. f_equal. now apply IH.
Qed.

Lemma str_replace_absent old new s :
  str_contains old s = false -> str_replace old new s = s.
Proof.
  intros Habs. destruct old as [ | c old].
  - destruct s; discriminate.
  - now apply replace_from_absent.
Qed.

(** A leading occurrence is removed and the scan goes on behind it. *)
Lemma str_replace_leading c old s :
  str_replace (String c old) "" (String c old +:+ s)
  = str_replace (String c old) "" s.
Proof.
  unfold str_replace. change (String c old +:+ s) with (String c (old +:+ s)).
  cbn [replace_from].
  change (String c (old +:+ s)) with (String c old +:+ s).
  rewrite prefix_append.
  replace (String.length (String c old) - 1) with (String.length old)
    by (simpl; lia).
  now rewrite replace_from_skip.
Qed.

(** For a site made of a scheme and a host, [site_without_http] is the
    host. *)
Lemma site_without_http_host zcfg host :
  str_contains "https://" host = false ->
  str_contains "http://" host = false ->
  zc_site zcfg = "https://" +:+ host \/ zc_site zcfg = "http://" +:+ host ->
  site_without_http zcfg = host.
Proof.
  intros Hs Hp Hsite. unfold site_without_http.
  destruct Hsite as [-> | ->].
  - rewrite str_replace_leading.
    rewrite (str_replace_absent "https://" "" host Hs).
    now apply str_replace_absent.
  - rewrite (str_replace_absent "https://" "" ("http://" +:+ host)).
    + rewrite str_replace_leading. now apply str_replace_absent.
    + simpl. exact Hs.
Qed.

(** ** The request sent to Zulip *)

Lemma zulip_request_fields client zcfg content :
  zulip_request client zcfg content !! "sender"
  = Some (VStr (client_email client)) /\
  zulip_request client zcfg content !! "type" = Some (VStr "stream") /\
  zulip_request client zcfg content !! "to" = Some (VStr (zc_stream zcfg)) /\
  zulip_request client zcfg content !! "subject"
  = Some (VStr (zc_subject zcfg)) /\
  zulip_request client zcfg content !! "content" = Some content.
Proof. repeat split; vm_compute; reflexivity. Qed.

Lemma append_inj_r p a b : p +:+ a = p +:+ b -> a = b.
Proof.
  induction p as [ | c p IH]; cbn [String.append]; [ easy | ].
  intros [= Heq]. now apply IH.
Qed.

(** A sender on another homeserver is not the marker. *)
Lemma foreign_sender_is_not_marker mcfg server :
  server <> "matrix.org" ->
  py_eq_str (VStr ("@" +:+ mc_username mcfg +:+ ":" +:+ server))
    (zulip_bot_user mcfg) = false.
Proof.
  intros Hserver. apply py_eq_str_false. intros Heq.
  apply Hserver. unfold zulip_bot_user in Heq.
  injection Heq as Hstr.
  apply (append_inj_r "" (mc_username mcfg +:+ ":" +:+ server)) in Hstr.
  apply (append_inj_r (mc_username mcfg)) in Hstr.
  now injection Hstr.
Qed.

(** Rendering ends in one of four ways. *)
Lemma render_total str (event : gmap string pyval) :
  (exists v, get_message_content_from_event str event = Return v) \/
  get_message_content_from_event str event
  = Raise (UnboundLocalError "content") \/
  (exists key, get_message_content_from_event str event
               = Raise (KeyError key)) \/
  (exists text, get_message_content_from_event str event
                = Raise (TypeError text)).
Proof.
  unfold get_message_content_from_event, getitem.
  destruct (event !! "type") as [ty | ]; [ | cbn; eauto 6 ].
  cbn [mbind result_bind].
  destruct (py_eq_str ty "m.room.member").
  { destruct (event !! "membership") as [membership | ]; [ | cbn; eauto 6 ].
    cbn [mbind result_bind].
    destruct (py_eq_str membership "join");
      [ | destruct (py_eq_str membership "leave") ];
      destruct (event !! "sender"); cbn; eauto 6. }
  destruct (py_eq_str ty "m.room.message"); [ | cbn; eauto 6 ].
  destruct (event !! "content") as [c | ]; [ | cbn; eauto 6 ].
  cbn [mbind result_bind].
  destruct c as [ | b | z | s | l | d ]; try (cbn; eauto 6).
  unfold subscript, getitem.
  destruct (d !! "msgtype") as [msgtype | ]; [ | cbn; eauto 6 ].
  cbn [mbind result_bind].
  destruct (py_eq_str msgtype "m.text");
    [ | destruct (py_eq_str msgtype "m.emote") ];
    destruct (event !! "sender"); destruct (d !! "body"); cbn; eauto 6.
Qed.

(** * The claims *)


(** C2 (amended).  For every inbound Zulip message of type ["stream"]
    whose sender is not the bot, whose [display_recipient] is the
    configured stream and whose [subject] is the configured subject, the
    Zulip-to-Matrix callback issues exactly one send to the room, with
    the text ["{mention}: {content}"], where the mention is
    ["@**{sender_full_name}**:{site}"] and the site is the configured
    site with ["https://"] and ["http://"] removed; for a site made of
    one of the two schemes and a host, that is the host. *)
Theorem zulip_to_matrix_relays_stream_message
    str zcfg room (msg : gmap string pyval) sender_email full_name content :
  msg !! "type" = Some (VStr "stream") ->
  msg !! "sender_email" = Some sender_email ->
  sender_email <> VStr (zc_email zcfg) ->
  msg !! "display_recipient" = Some (VStr (zc_stream zcfg)) ->
  msg !! "subject" = Some (VStr (zc_subject zcfg)) ->
  msg !! "sender_full_name" = Some full_name ->
  msg !! "content" = Some content ->
  matrix_sends (trace (zulip_to_matrix str zcfg room msg))
  = [("@**" +:+ py_format str full_name +:+ "**:" +:+ site_without_http zcfg)
     +:+ ": " +:+ py_format str content] /\
  forall host,
    str_contains "https://" host = false ->
    str_contains "http://" host = false ->
    zc_site zcfg = "https://" +:+ host \/ zc_site zcfg = "http://" +:+ host ->
    site_without_http zcfg = host.
Proof.
  intros Hty Hse Hne Hre Hsu Hfn Hco. split.
  - rewrite (zulip_callback_relays str zcfg room msg sender_email full_name
               content Hty Hse Hne Hre Hsu Hfn Hco).
    reflexivity.
  - intros host. apply site_without_http_host.
Qed.

(** C3.  For every inbound Zulip message whose sender is the bot, or
    whose [display_recipient] is not the configured stream, or whose
    [subject] is not the configured subject, the Zulip-to-Matrix callback
    issues no send to Matrix. *)
Theorem zulip_to_matrix_skips_filtered
    str zcfg room (msg : gmap string pyval) :
  msg !! "sender_email" = Some (VStr (zc_email zcfg)) \/
  msg !! "display_recipient" <> Some (VStr (zc_stream zcfg)) \/
  msg !! "subject" <> Some (VStr (zc_subject zcfg)) ->
  matrix_sends (trace (zulip_to_matrix str zcfg room msg)) = [].
Proof.
  intros Hskip. rewrite zulip_callback_skips; [ reflexivity | ].
  right. exact Hskip.
Qed.

(** C4.  For every inbound Matrix event of type [m.room.message] with
    msgtype [m.text] or [m.emote] whose sender is not the bot's marker,
    the Matrix-to-Zulip callback issues exactly one send to Zulip: a
    stream message to the configured stream and subject with content
    ["{sender}: {body}"]. *)
Theorem matrix_to_zulip_forwards_text
    str client zcfg mcfg (event d : gmap string pyval) msgtype sender body :
  event !! "type" = Some (VStr "m.room.message") ->
  event !! "content" = Some (VDict d) ->
  d !! "msgtype" = Some (VStr msgtype) ->
  msgtype = "m.text" \/ msgtype = "m.emote" ->
  d !! "body" = Some body ->
  event !! "sender" = Some sender ->
  sender <> VStr (zulip_bot_user mcfg) ->
  exists request,
    zulip_sends (trace (matrix_to_zulip str client zcfg mcfg event))
    = [request] /\
    request !! "content"
    = Some (VStr (py_format str sender +:+ ": " +:+ py_format str body)) /\
    request !! "type" = Some (VStr "stream") /\
    request !! "to" = Some (VStr (zc_stream zcfg)) /\
    request !! "subject" = Some (VStr (zc_subject zcfg)).
Proof.
  intros Hty Hc Hmt Hkind Hb Hs Hne.
  set (content := VStr (py_format str sender +:+ ": " +:+ py_format str body)).
  assert (Hr : get_message_content_from_event str event = Return content).
  { apply (render_text str event (VDict d) msgtype); try assumption.
    - simpl. now apply getitem_Some.
    - simpl. now apply getitem_Some. }
  assert (Hf : not_from_zulip_bot mcfg event = Return true).
  { rewrite (filter_with_body mcfg event d body sender Hc Hb Hs).
    apply py_eq_str_false in Hne. now rewrite Hne. }
  exists (zulip_request client zcfg content).
  rewrite (callback_forwards str client zcfg mcfg event content Hr Hf).
  destruct (zulip_request_fields client zcfg content)
    as (_ & Htype & Hto & Hsubject & Hcontent).
  now repeat split.
Qed.

(** C5.  A Matrix membership event with membership ["join"] is rendered
    as ["{sender} joined"] and one with membership ["leave"] as
    ["{sender} quit"].  Handling such an event sends nothing to the
    Matrix room, and the Zulip message that results from it carries the
    bot as its sender, so that the Zulip-to-Matrix callback does not send
    it to the room either. *)
Theorem membership_events_render_and_stay
    str client zcfg mcfg (event : gmap string pyval) sender :
  event !! "type" = Some (VStr "m.room.member") ->
  event !! "sender" = Some sender ->
  (event !! "membership" = Some (VStr "join") ->
   get_message_content_from_event str event
   = Return (VStr (py_format str sender +:+ " joined"))) /\
  (event !! "membership" = Some (VStr "leave") ->
   get_message_content_from_event str event
   = Return (VStr (py_format str sender +:+ " quit"))) /\
  matrix_sends (trace (matrix_to_zulip str client zcfg mcfg event)) = [] /\
  (client_email client = zc_email zcfg ->
   forall request room (msg : gmap string pyval),
     request ∈ zulip_sends (trace (matrix_to_zulip str client zcfg mcfg event)) ->
     msg !! "sender_email" = request !! "sender" ->
     matrix_sends (trace (zulip_to_matrix str zcfg room msg)) = []).
Proof.
  intros Hty Hs. split; [ | split; [ | split ] ].
  - intros Hm. now apply render_join.
  - intros Hm. now apply render_leave.
  - destruct (callback_trace_cases str client zcfg mcfg event)
      as [-> | [content ->]]; reflexivity.
  - intros Hemail request room msg Hin Hsender.
    destruct (callback_trace_cases str client zcfg mcfg event)
      as [Ht | [content Ht]]; rewrite Ht in Hin; simpl in Hin.
    + now apply elem_of_nil in Hin.
    + apply list_elem_of_singleton in Hin. subst request.
      destruct (zulip_request_fields client zcfg content) as (Hfrom & _).
      rewrite Hfrom, Hemail in Hsender.
      rewrite zulip_callback_skips; [ reflexivity | ].
      right. left. exact Hsender.
Qed.

(** C6.  When the callback has reached the send, a [MatrixRequestError]
    raised by the call and an acknowledgment whose [result] is not
    ["success"] both end the callback with an exception of the one class
    [Exception]; the request was issued once and is not issued again. *)
Theorem matrix_to_zulip_normalizes_failures
    str client zcfg mcfg (event : gmap string pyval) content :
  get_message_content_from_event str event = Return content ->
  not_from_zulip_bot mcfg event = Return true ->
  let request := zulip_request client zcfg content in
  (forall code text,
     client_send_message client request = Raise (MatrixRequestError code text) ->
     matrix_to_zulip str client zcfg mcfg event
     = (Raise (Exception (ArgException (MatrixRequestError code text))),
        [ZulipSendMessage request])) /\
  (forall (ack : gmap string pyval) status msg,
     client_send_message client request = Return (VDict ack) ->
     ack !! "result" = Some status ->
     status <> VStr "success" ->
     ack !! "msg" = Some msg ->
     matrix_to_zulip str client zcfg mcfg event
     = (Raise (Exception (ArgValue msg)), [ZulipSendMessage request])).
Proof.
  intros Hr Hf request. split.
  - intros code text Hsend. unfold matrix_to_zulip. rewrite Hr, Hf.
    rewrite !io_bind_lift_Return. fold request.
    unfold try_send_message. rewrite Hsend. reflexivity.
  - intros ack status msg Hsend Hres Hne Hmsg.
    apply py_eq_str_false in Hne.
    unfold matrix_to_zulip. rewrite Hr, Hf.
    rewrite !io_bind_lift_Return. fold request.
    unfold try_send_message. rewrite Hsend.
    rewrite io_bind_perform_Return. simpl subscript. eval_lookups.
    rewrite Hne. simpl negb. cbn iota. eval_lookups. reflexivity.
Qed.

(** ** The supervisor with the backoff of the zulip package *)

Lemma sleeps_attempt s e delay t :
  sleeps (Print "Starting matrix mirroring bot"
            :: stage_prints s ++ [PrintExc e; Sleep delay] ++ t)%list
  = delay :: sleeps t.
Proof. destruct s; reflexivity. Qed.

Lemma starts_attempt s e delay t :
  length (List.filter is_start
            (Print "Starting matrix mirroring bot"
               :: stage_prints s ++ [PrintExc e; Sleep delay] ++ t)%list)
  = S (length (List.filter is_start t)).
Proof. destruct s; reflexivity. Qed.

(** While no success timeout passes, the check leaves the count. *)
Lemma check_success_timeout_steady retries since passed :
  (since = None \/ exists d, since = Some d /\ (d <= 90)%nat) ->
  (passed <= 210)%nat ->
  check_success_timeout
    {| number_of_retries := retries; maximum_retries := 10;
       timeout_success_equivalent := Some 300; delay_cap := 90;
       since_last_attempt := since |} passed
  = retries.
Proof.
  intros [-> | (d & -> & Hd)] Hpassed; unfold check_success_timeout;
    cbn [timeout_success_equivalent since_last_attempt number_of_retries];
    [ reflexivity | ].
  destruct (Nat.ltb_spec 300 (d + passed)) as [Hlate | _]; [ lia | reflexivity ].
Qed.

(** The loop from a state with [retries] failures counted, run against
    quick failures. *)
Lemma supervise_counted (attempts : list attempt) :
  forall retries since,
    (retries <= 10)%nat ->
    (since = None \/ exists d, since = Some d /\ (d <= 90)%nat) ->
    forallb is_quick_failure attempts = true ->
    let backoff :=
      {| number_of_retries := retries; maximum_retries := 10;
         timeout_success_equivalent := Some 300; delay_cap := 90;
         since_last_attempt := since |} in
    fst (supervise backoff attempts)
    = (if Nat.ltb (retries + length attempts) 10 then Attempting else Stopped) /\
    length (sleeps (snd (supervise backoff attempts)))
    = Nat.min (length attempts) (10 - retries) /\
    (forall i s e sustained jitter,
       (retries + i < 10)%nat ->
       attempts !! i = Some (Fails s e sustained jitter) ->
       sleeps (snd (supervise backoff attempts)) !! i
       = Some (Nat.min (delay_scale (S (retries + i)) + jitter) 90)) /\
    length (List.filter is_start (snd (supervise backoff attempts)))
    = Nat.min (S (length attempts)) (10 - retries).
Proof.
  induction attempts as [ | a rest IH]; intros retries since Hle Hsince Hquick
    backoff.
  - assert (Hkeep : keep_going backoff = Nat.ltb retries 10).
    { unfold backoff. cbn [keep_going reb_backoff]. unfold reb_keep_going.
      rewrite check_success_timeout_steady by (assumption || lia).
      reflexivity. }
    cbn [supervise]. rewrite Hkeep. rewrite Nat.add_0_r.
    destruct (Nat.ltb_spec retries 10) as [Hlt | Hge]; cbn [fst snd].
    + change (sleeps [Print "Starting matrix mirroring bot"]) with (@nil nat).
      change (length (List.filter is_start
                        [Print "Starting matrix mirroring bot"])) with 1.
      cbn [length].
      repeat split; try lia;
        intros i s e sustained jitter _ Hi; discriminate Hi.
    + change (sleeps []) with (@nil nat). cbn [length List.filter].
      repeat split; try lia;
        intros i s e sustained jitter _ Hi; discriminate Hi.
  - cbn [forallb] in Hquick. apply andb_true_iff in Hquick as [Ha Hrest].
    destruct a as [s e sustained jitter | | ]; try discriminate Ha.
    cbn [is_quick_failure] in Ha. apply Nat.leb_le in Ha.
    assert (Hkeep : keep_going backoff = Nat.ltb retries 10).
    { unfold backoff. cbn [keep_going reb_backoff]. unfold reb_keep_going.
      rewrite check_success_timeout_steady by (assumption || lia).
      reflexivity. }
    cbn [supervise]. rewrite Hkeep.
    destruct (Nat.ltb_spec retries 10) as [Hlt | Hge].
    + set (delay := Nat.min (delay_scale (S retries) + jitter) 90).
      assert (Hfail :
        fail backoff sustained jitter
        = ({| number_of_retries := S retries; maximum_retries := 10;
              timeout_success_equivalent := Some 300; delay_cap := 90;
              since_last_attempt := Some delay |}, delay)).
      { unfold backoff. cbn [fail reb_backoff]. unfold reb_fail, counting_fail.
        rewrite check_success_timeout_steady by assumption.
        cbn [maximum_retries timeout_success_equivalent delay_cap].
        replace (Nat.min (retries + 1) 10) with (S retries) by lia.
        reflexivity. }
      rewrite Hfail.
      assert (Hdelay : Some delay = None \/
                       exists d, Some delay = Some d /\ (d <= 90)%nat).
      { right. exists delay. split; [ reflexivity | unfold delay; lia ]. }
      destruct (IH (S retries) (Some delay) ltac:(lia) Hdelay Hrest)
        as (Hst & Hlen & Hnth & Hstart).
      destruct (supervise
                  {| number_of_retries := S retries; maximum_retries := 10;
                     timeout_success_equivalent := Some 300; delay_cap := 90;
                     since_last_attempt := Some delay |} rest) as [st t].
      cbn [fst snd] in *. rewrite sleeps_attempt, starts_attempt.
      cbn [length]. rewrite Nat.add_succ_r.
      split; [ exact Hst | split; [ | split ] ].
      * rewrite Hlen. lia.
      * intros i s' e' sustained' jitter' Hi Hlookup.
        destruct i as [ | i].
        -- cbn in Hlookup. injection Hlookup as _ _ _ <-.
           rewrite Nat.add_0_r. reflexivity.
        -- cbn in Hlookup. rewrite Nat.add_succ_r.
           apply (Hnth i s' e' sustained' jitter'); [ lia | exact Hlookup ].
      * rewrite Hstart. lia.
    + assert (retries = 10) by lia. subst retries. cbn [fst snd length sleeps].
      replace (Nat.ltb (10 + S (length rest)) 10) with false
        by (symmetry; apply Nat.ltb_ge; lia).
      repeat split; try lia; intros i s' e' sustained' jitter' Hi; lia.
Qed.

(** C7 (amended).  The supervisor loop retries as long as the backoff
    object allows and no longer: against quickly failing attempts it
    sleeps the delay of the randomized exponential backoff after each
    failure and starts again, up to the tenth failure in a row; then
    [keep_going] is false and the loop ends on its own, ten attempts
    having been started. *)
Theorem supervisor_retries_until_backoff_gives_up (attempts : list attempt) :
  forallb is_quick_failure attempts = true ->
  fst (supervise (new_backoff 300) attempts)
  = (if Nat.ltb (length attempts) 10 then Attempting else Stopped) /\
  length (sleeps (snd (supervise (new_backoff 300) attempts)))
  = Nat.min (length attempts) 10 /\
  (forall i s e sustained jitter,
     (i < 10)%nat ->
     attempts !! i = Some (Fails s e sustained jitter) ->
     sleeps (snd (supervise (new_backoff 300) attempts)) !! i
     = Some (Nat.min (delay_scale (S i) + jitter) 90)) /\
  length (List.filter is_start (snd (supervise (new_backoff 300) attempts)))
  = Nat.min (S (length attempts)) 10.
Proof.
  intros Hquick.
  exact (supervise_counted attempts 0 None ltac:(lia) (or_introl eq_refl)
           Hquick).
Qed.

(** C8.  The marker of the bot's own identity is built from the
    configured username alone, with the homeserver fixed to
    [matrix.org]; a text or emote message that the bot posts on any
    other homeserver passes the filter and is forwarded to Zulip. *)
Theorem bot_marker_ignores_homeserver
    str client zcfg mcfg (event d : gmap string pyval) server msgtype body :
  server <> "matrix.org" ->
  event !! "type" = Some (VStr "m.room.message") ->
  event !! "sender"
  = Some (VStr ("@" +:+ mc_username mcfg +:+ ":" +:+ server)) ->
  event !! "content" = Some (VDict d) ->
  d !! "msgtype" = Some (VStr msgtype) ->
  msgtype = "m.text" \/ msgtype = "m.emote" ->
  d !! "body" = Some body ->
  (forall mcfg',
     mc_username mcfg' = mc_username mcfg ->
     zulip_bot_user mcfg' = "@" +:+ mc_username mcfg +:+ ":matrix.org") /\
  not_from_zulip_bot mcfg event = Return true /\
  zulip_sends (trace (matrix_to_zulip str client zcfg mcfg event))
  = [zulip_request client zcfg
       (VStr (("@" +:+ mc_username mcfg +:+ ":" +:+ server)
              +:+ ": " +:+ py_format str body))].
Proof.
  intros Hserver Hty Hs Hc Hmt Hkind Hb.
  assert (Hf : not_from_zulip_bot mcfg event = Return true).
  { rewrite (filter_with_body mcfg event d body _ Hc Hb Hs).
    now rewrite foreign_sender_is_not_marker. }
  split; [ | split ].
  - intros mcfg' Hname. unfold zulip_bot_user. now rewrite Hname.
  - exact Hf.
  - rewrite (callback_forwards str client zcfg mcfg event
               (VStr (("@" +:+ mc_username mcfg +:+ ":" +:+ server)
                      +:+ ": " +:+ py_format str body))).
    + reflexivity.
    + apply (render_text str event (VDict d) msgtype
               (VStr ("@" +:+ mc_username mcfg +:+ ":" +:+ server)) body);
        try assumption; simpl; now apply getitem_Some.
    + exact Hf.
Qed.

(** C9 (amended).  [get_message_content_from_event] is partial.  An
    [m.room.member] event whose membership is neither ["join"] nor
    ["leave"], and an [m.room.message] event whose msgtype is neither
    ["m.text"] nor ["m.emote"], leave [content] unassigned and raise the
    error of an unbound local variable.  A join or leave event that has
    a sender, and a text or emote event that has a sender and a body,
    yield the rendered string; an event of any other type yields its
    type.  No event ends in another way than a returned value, that
    error, a [KeyError] (a field that its branch reads is missing) or a
    [TypeError] (its content is not a dictionary). *)
Theorem get_message_content_from_event_cases
    str (event : gmap string pyval) :
  (forall membership,
     event !! "type" = Some (VStr "m.room.member") ->
     event !! "membership" = Some membership ->
     membership <> VStr "join" ->
     membership <> VStr "leave" ->
     get_message_content_from_event str event
     = Raise (UnboundLocalError "content")) /\
  (forall c msgtype,
     event !! "type" = Some (VStr "m.room.message") ->
     event !! "content" = Some c ->
     subscript c "msgtype" = Return msgtype ->
     msgtype <> VStr "m.text" ->
     msgtype <> VStr "m.emote" ->
     get_message_content_from_event str event
     = Raise (UnboundLocalError "content")) /\
  (forall sender,
     event !! "type" = Some (VStr "m.room.member") ->
     event !! "sender" = Some sender ->
     (event !! "membership" = Some (VStr "join") ->
      get_message_content_from_event str event
      = Return (VStr (py_format str sender +:+ " joined"))) /\
     (event !! "membership" = Some (VStr "leave") ->
      get_message_content_from_event str event
      = Return (VStr (py_format str sender +:+ " quit")))) /\
  (forall (d : gmap string pyval) msgtype sender body,
     event !! "type" = Some (VStr "m.room.message") ->
     event !! "content" = Some (VDict d) ->
     d !! "msgtype" = Some (VStr msgtype) ->
     msgtype = "m.text" \/ msgtype = "m.emote" ->
     event !! "sender" = Some sender ->
     d !! "body" = Some body ->
     get_message_content_from_event str event
     = Return (VStr (py_format str sender +:+ ": " +:+ py_format str body))) /\
  (forall ty,
     event !! "type" = Some ty ->
     ty <> VStr "m.room.member" ->
     ty <> VStr "m.room.message" ->
     get_message_content_from_event str event = Return ty) /\
  ((exists v, get_message_content_from_event str event = Return v) \/
   get_message_content_from_event str event
   = Raise (UnboundLocalError "content") \/
   (exists key, get_message_content_from_event str event
                = Raise (KeyError key)) \/
   (exists text, get_message_content_from_event str event
                 = Raise (TypeError text))).
Proof.
  split; [ | split; [ | split; [ | split; [ | split ] ] ] ].
  - intros membership. apply render_other_membership.
  - intros c msgtype. apply render_other_msgtype.
  - intros sender Hty Hs. split; intros Hm.
    + now apply render_join.
    + now apply render_leave.
  - intros d msgtype sender body Hty Hc Hmt Hkind Hs Hb.
    apply (render_text str event (VDict d) msgtype); try assumption;
      simpl; now apply getitem_Some.
  - intros ty. apply render_other_type.
  - apply render_total.
Qed.

(** C10.  The callback renders the content before it evaluates the
    loop-prevention filter: whenever rendering raises, the callback
    raises the same exception and has sent nothing, whatever the filter
    would have decided. *)
Theorem rendering_failure_precedes_filter
    str client zcfg mcfg (event : gmap string pyval) e :
  get_message_content_from_event str event = Raise e ->
  matrix_to_zulip str client zcfg mcfg event = (Raise e, []).
Proof. apply callback_render_raises. Qed.

(** * The claims on the samples *)



Lemma zulip_to_matrix_relays_stream_message_witness :
  matrix_sends
    (trace (zulip_to_matrix str_unused sample_zulip_config sample_room
              stream_message))
  = ["@**alice**:host: hello"] /\
  site_without_http sample_zulip_config = "host".
Proof.
  assert (Hne : VStr "alice@host" <> VStr (zc_email sample_zulip_config))
    by discriminate.
  destruct (zulip_to_matrix_relays_stream_message str_unused
              sample_zulip_config sample_room stream_message
              (VStr "alice@host") (VStr "alice") (VStr "hello")
              eq_refl eq_refl Hne eq_refl eq_refl eq_refl eq_refl)
    as [Hsend Hsite].
  split.
  - exact Hsend.
  - apply Hsite; [ vm_compute; reflexivity | vm_compute; reflexivity | ].
    left. reflexivity.
Defined.

(** A message that matches sender, stream and subject but is not of type
    ["stream"] is not relayed. *)
Lemma non_stream_message_is_not_relayed :
  ~ (forall str zcfg room (msg : gmap string pyval)
            sender_email full_name content,
       msg !! "sender_email" = Some sender_email ->
       sender_email <> VStr (zc_email zcfg) ->
       msg !! "display_recipient" = Some (VStr (zc_stream zcfg)) ->
       msg !! "subject" = Some (VStr (zc_subject zcfg)) ->
       msg !! "sender_full_name" = Some full_name ->
       msg !! "content" = Some content ->
       matrix_sends (trace (zulip_to_matrix str zcfg room msg))
       = [("@**" +:+ py_format str full_name +:+ "**:"
           +:+ site_without_http zcfg)
          +:+ ": " +:+ py_format str content]).
Proof.
  intros Hclaim.
  specialize (Hclaim str_unused sample_zulip_config sample_room
                non_stream_message
                (VStr "alice@host") (VStr "alice") (VStr "hello")).
  assert (Hnone :
    matrix_sends
      (trace (zulip_to_matrix str_unused sample_zulip_config sample_room
                non_stream_message)) = [])
    by (vm_compute; reflexivity).
  rewrite Hclaim in Hnone; try (vm_compute; reflexivity).
  - discriminate Hnone.
  - discriminate.
Qed.

Lemma zulip_to_matrix_skips_filtered_witness :
  matrix_sends
    (trace (zulip_to_matrix str_unused sample_zulip_config sample_room
              own_message))
  = [].
Proof.
  apply zulip_to_matrix_skips_filtered.
  left. vm_compute; reflexivity.
Defined.

Lemma matrix_to_zulip_forwards_text_witness :
  exists request,
    zulip_sends
      (trace (matrix_to_zulip str_unused accepting_client sample_zulip_config
                sample_matrix_config bob_event))
    = [request] /\
    request !! "content" = Some (VStr "@bob:matrix.org: hi") /\
    request !! "type" = Some (VStr "stream") /\
    request !! "to" = Some (VStr "mirror") /\
    request !! "subject" = Some (VStr "general").
Proof.
  apply (matrix_to_zulip_forwards_text str_unused accepting_client
           sample_zulip_config sample_matrix_config bob_event
           (list_to_map [("msgtype", VStr "m.text"); ("body", VStr "hi")])
           "m.text" (VStr "@bob:matrix.org") (VStr "hi"));
    try (vm_compute; reflexivity).
  - left. reflexivity.
  - discriminate.
Defined.

Lemma membership_events_render_and_stay_witness :
  get_message_content_from_event str_unused bob_leave_event
  = Return (VStr "@bob:matrix.org quit") /\
  matrix_sends
    (trace (matrix_to_zulip str_unused accepting_client sample_zulip_config
              sample_matrix_config bob_leave_event))
  = [].
Proof.
  destruct (membership_events_render_and_stay str_unused accepting_client
              sample_zulip_config sample_matrix_config bob_leave_event
              (VStr "@bob:matrix.org") eq_refl eq_refl)
    as (_ & Hleave & Hroom & _).
  split; [ | exact Hroom ].
  apply Hleave. vm_compute; reflexivity.
Defined.

Lemma matrix_to_zulip_normalizes_failures_witness :
  matrix_to_zulip str_unused forbidden_client sample_zulip_config
    sample_matrix_config bob_event
  = (Raise (Exception (ArgException (MatrixRequestError 403 "Forbidden"))),
     [ZulipSendMessage
        (zulip_request forbidden_client sample_zulip_config
           (VStr "@bob:matrix.org: hi"))]) /\
  matrix_to_zulip str_unused rejecting_client sample_zulip_config
    sample_matrix_config bob_event
  = (Raise (Exception (ArgValue (VStr "Invalid API key"))),
     [ZulipSendMessage
        (zulip_request rejecting_client sample_zulip_config
           (VStr "@bob:matrix.org: hi"))]).
Proof.
  assert (Hrender : get_message_content_from_event str_unused bob_event
                    = Return (VStr "@bob:matrix.org: hi"))
    by (vm_compute; reflexivity).
  assert (Hfilter : not_from_zulip_bot sample_matrix_config bob_event
                    = Return true)
    by (vm_compute; reflexivity).
  split.
  - destruct (matrix_to_zulip_normalizes_failures str_unused forbidden_client
                sample_zulip_config sample_matrix_config bob_event
                (VStr "@bob:matrix.org: hi") Hrender Hfilter)
      as [Hraised _].
    apply Hraised. reflexivity.
  - destruct (matrix_to_zulip_normalizes_failures str_unused rejecting_client
                sample_zulip_config sample_matrix_config bob_event
                (VStr "@bob:matrix.org: hi") Hrender Hfilter)
      as [_ Hrejected].
    apply (Hrejected
             (list_to_map [("result", VStr "error");
                           ("msg", VStr "Invalid API key")])
             (VStr "error"));
      [ reflexivity | vm_compute; reflexivity | discriminate
      | vm_compute; reflexivity ].
Defined.

(** Twelve quick failures: the loop has stopped, after ten attempts and
    ten sleeps of 2, 3, 3, 4, 4, 6, 7, 10, 13 and 18 seconds. *)
Lemma supervisor_retries_until_backoff_gives_up_witness :
  fst (supervise (new_backoff 300) twelve_failures) = Stopped /\
  length (sleeps (snd (supervise (new_backoff 300) twelve_failures))) = 10 /\
  sleeps (snd (supervise (new_backoff 300) twelve_failures)) !! 9 = Some 18 /\
  length (List.filter is_start
            (snd (supervise (new_backoff 300) twelve_failures))) = 10.
Proof.
  destruct (supervisor_retries_until_backoff_gives_up twelve_failures)
    as (Hst & Hlen & Hnth & Hstart); [ vm_compute; reflexivity | ].
  split; [ exact Hst | split; [ exact Hlen | split; [ | exact Hstart ] ] ].
  apply (Hnth 9 Connecting (OtherError "ConnectionError") 1 1);
    [ lia | reflexivity ].
Defined.

(** The loop does not retry without bound: after twelve failures in a
    row it is no longer attempting. *)
Lemma supervisor_stops_after_ten_failures :
  fst (supervise (new_backoff 300) twelve_failures) = Stopped /\
  ~ (forall attempts : list attempt,
       forallb is_failure attempts = true ->
       fst (supervise (new_backoff 300) attempts) = Attempting).
Proof.
  assert (Hstopped : fst (supervise (new_backoff 300) twelve_failures)
                     = Stopped)
    by (vm_compute; reflexivity).
  split; [ exact Hstopped | ].
  intros Hclaim.
  assert (Hall : forallb is_failure twelve_failures = true)
    by (vm_compute; reflexivity).
  specialize (Hclaim twelve_failures Hall).
  rewrite Hstopped in Hclaim. discriminate Hclaim.
Qed.

Lemma bot_marker_ignores_homeserver_witness :
  not_from_zulip_bot other_host_matrix_config other_host_echo_event
  = Return true /\
  zulip_sends
    (trace (matrix_to_zulip str_unused accepting_client sample_zulip_config
              other_host_matrix_config other_host_echo_event))
  = [zulip_request accepting_client sample_zulip_config
       (VStr "@bot:example.org: @**alice**:host: hello")].
Proof.
  assert (Hserver : "example.org" <> "matrix.org") by discriminate.
  destruct (bot_marker_ignores_homeserver str_unused accepting_client
              sample_zulip_config other_host_matrix_config
              other_host_echo_event
              (list_to_map [("msgtype", VStr "m.text");
                            ("body", VStr "@**alice**:host: hello")])
              "example.org" "m.text" (VStr "@**alice**:host: hello")
              Hserver eq_refl eq_refl eq_refl eq_refl
              (or_introl eq_refl) eq_refl)
    as (_ & Hfilter & Hsend).
  split; [ exact Hfilter | exact Hsend ].
Defined.

(** A redacted message neither yields a string nor raises the error of
    an unbound variable: reading its msgtype raises a [KeyError]. *)
Lemma redacted_event_raises_key_error :
  get_message_content_from_event str_unused redacted_event
  = Raise (KeyError "msgtype") /\
  ~ (forall str (event : gmap string pyval),
       get_message_content_from_event str event
       = Raise (UnboundLocalError "content") \/
       exists text, get_message_content_from_event str event
                    = Return (VStr text)).
Proof.
  assert (Hredacted : get_message_content_from_event str_unused redacted_event
                      = Raise (KeyError "msgtype"))
    by (vm_compute; reflexivity).
  split; [ exact Hredacted | ].
  intros Hclaim.
  destruct (Hclaim str_unused redacted_event) as [Hunbound | [text Htext]].
  - rewrite Hredacted in Hunbound. discriminate Hunbound.
  - rewrite Hredacted in Htext. discriminate Htext.
Qed.

Lemma get_message_content_from_event_cases_witness :
  get_message_content_from_event str_unused bob_invite_event
  = Raise (UnboundLocalError "content") /\
  get_message_content_from_event str_unused bot_image_event
  = Raise (UnboundLocalError "content") /\
  get_message_content_from_event str_unused topic_event
  = Return (VStr "m.room.topic").
Proof.
  destruct (get_message_content_from_event_cases str_unused bob_invite_event)
    as (Hmember & _).
  destruct (get_message_content_from_event_cases str_unused bot_image_event)
    as (_ & Hmessage & _).
  destruct (get_message_content_from_event_cases str_unused topic_event)
    as (_ & _ & _ & _ & Hother & _).
  split; [ | split ].
  - apply (Hmember (VStr "invite"));
      first [ vm_compute; reflexivity | discriminate ].
  - apply (Hmessage
             (VDict (list_to_map [("msgtype", VStr "m.image");
                                  ("body", VStr "cat.png")]))
             (VStr "m.image"));
      first [ vm_compute; reflexivity | discriminate ].
  - apply Hother; first [ vm_compute; reflexivity | discriminate ].
Defined.

(** An image posted under the bot's identity would be held back by the
    filter, and its rendering failure leaves the callback first. *)
Lemma rendering_failure_precedes_filter_witness :
  not_from_zulip_bot sample_matrix_config bot_image_event = Return false /\
  matrix_to_zulip str_unused accepting_client sample_zulip_config
    sample_matrix_config bot_image_event
  = (Raise (UnboundLocalError "content"), []).
Proof.
  split; [ vm_compute; reflexivity | ].
  apply rendering_failure_precedes_filter.
  vm_compute; reflexivity.
Defined.

(** * Further properties of the callbacks *)

(** X1.  Whatever the event, the Matrix callback sends nothing to the
    Matrix room and calls [send_message] at most once; the one request
    it may send is a stream message from the client's own address to
    the configured stream and subject, and carries the rendered
    content. *)
Theorem matrix_callback_sends_at_most_one_request
    str client zcfg mcfg (event : gmap string pyval) :
  matrix_sends (trace (matrix_to_zulip str client zcfg mcfg event)) = [] /\
  (trace (matrix_to_zulip str client zcfg mcfg event) = [] \/
   exists content request,
     get_message_content_from_event str event = Return content /\
     trace (matrix_to_zulip str client zcfg mcfg event)
     = [ZulipSendMessage request] /\
     request !! "sender" = Some (VStr (client_email client)) /\
     request !! "type" = Some (VStr "stream") /\
     request !! "to" = Some (VStr (zc_stream zcfg)) /\
     request !! "subject" = Some (VStr (zc_subject zcfg)) /\
     request !! "content" = Some content).
Proof.
  destruct (get_message_content_from_event str event) as [content | e] eqn:Hr.
  - destruct (not_from_zulip_bot mcfg event) as [[ | ] | e] eqn:Hf.
    + rewrite (callback_forwards str client zcfg mcfg event content Hr Hf).
      split; [ reflexivity | ]. right.
      exists content, (zulip_request client zcfg content).
      destruct (zulip_request_fields client zcfg content)
        as (Hfrom & Htype & Hto & Hsubject & Hcontent).
      now repeat split.
    + rewrite (callback_drops str client zcfg mcfg event content Hr Hf).
      split; [ reflexivity | now left ].
    + rewrite (callback_filter_raises str client zcfg mcfg event content e
                 Hr Hf).
      split; [ reflexivity | now left ].
  - rewrite (callback_render_raises str client zcfg mcfg event e Hr).
    split; [ reflexivity | now left ].
Qed.

(** X2.  An event of a type other than [m.room.member] and
    [m.room.message] whose content has no [body] is forwarded with its
    type as the content, whoever sent it; the sender is not read. *)
Theorem other_events_are_forwarded_by_type
    str client zcfg mcfg (event d : gmap string pyval) ty :
  event !! "type" = Some ty ->
  ty <> VStr "m.room.member" ->
  ty <> VStr "m.room.message" ->
  event !! "content" = Some (VDict d) ->
  d !! "body" = None ->
  trace (matrix_to_zulip str client zcfg mcfg event)
  = [ZulipSendMessage (zulip_request client zcfg ty)].
Proof.
  intros Hty Hm Hg Hc Hb. apply callback_forwards.
  - now apply render_other_type.
  - now apply (filter_without_body mcfg event d).
Qed.

(** X3.  When [send_message] answers with an acknowledgment whose
    [result] is ["success"], the callback returns normally after that
    one call; the [msg] field is not read. *)
Theorem matrix_to_zulip_returns_on_success
    str client zcfg mcfg (event ack : gmap string pyval) content :
  get_message_content_from_event str event = Return content ->
  not_from_zulip_bot mcfg event = Return true ->
  client_send_message client (zulip_request client zcfg content)
  = Return (VDict ack) ->
  ack !! "result" = Some (VStr "success") ->
  matrix_to_zulip str client zcfg mcfg event
  = (Return tt, [ZulipSendMessage (zulip_request client zcfg content)]).
Proof.
  intros Hr Hf Hsend Hres. unfold matrix_to_zulip. rewrite Hr, Hf.
  rewrite !io_bind_lift_Return. unfold try_send_message. rewrite Hsend.
  rewrite io_bind_perform_Return. simpl subscript. eval_lookups.
  rewrite py_eq_str_refl. reflexivity.
Qed.

(** X4.  Only [MatrixRequestError] is replaced by [Exception]: any
    other exception that [send_message] raises leaves the callback as it
    is. *)
Theorem matrix_to_zulip_passes_other_exceptions
    str client zcfg mcfg (event : gmap string pyval) content e :
  get_message_content_from_event str event = Return content ->
  not_from_zulip_bot mcfg event = Return true ->
  client_send_message client (zulip_request client zcfg content) = Raise e ->
  (forall code text, e <> MatrixRequestError code text) ->
  matrix_to_zulip str client zcfg mcfg event
  = (Raise e, [ZulipSendMessage (zulip_request client zcfg content)]).
Proof.
  intros Hr Hf Hsend Hother. unfold matrix_to_zulip. rewrite Hr, Hf.
  rewrite !io_bind_lift_Return. unfold try_send_message. rewrite Hsend.
  destruct e as [ key | text | var | code text | arg | cls ];
    try reflexivity.
  now destruct (Hother code text).
Qed.

(** X5.  An acknowledgment of an unexpected shape is not turned into
    [Exception]: without a [result] field the callback raises
    [KeyError] for ["result"], with a [result] other than ["success"]
    and no [msg] field it raises [KeyError] for ["msg"], and when the
    acknowledgment is [None] it raises [TypeError]; the request has been
    sent in each case. *)
Theorem matrix_to_zulip_on_malformed_ack
    str client zcfg mcfg (event : gmap string pyval) content :
  get_message_content_from_event str event = Return content ->
  not_from_zulip_bot mcfg event = Return true ->
  let request := zulip_request client zcfg content in
  (forall ack : gmap string pyval,
     client_send_message client request = Return (VDict ack) ->
     ack !! "result" = None ->
     matrix_to_zulip str client zcfg mcfg event
     = (Raise (KeyError "result"), [ZulipSendMessage request])) /\
  (forall (ack : gmap string pyval) status,
     client_send_message client request = Return (VDict ack) ->
     ack !! "result" = Some status ->
     status <> VStr "success" ->
     ack !! "msg" = None ->
     matrix_to_zulip str client zcfg mcfg event
     = (Raise (KeyError "msg"), [ZulipSendMessage request])) /\
  (client_send_message client request = Return VNone ->
   matrix_to_zulip str client zcfg mcfg event
   = (Raise (TypeError "'NoneType' object is not subscriptable"),
      [ZulipSendMessage request])).
Proof.
  intros Hr Hf request. split; [ | split ].
  - intros ack Hsend Hres. unfold matrix_to_zulip. rewrite Hr, Hf.
    rewrite !io_bind_lift_Return. fold request.
    unfold try_send_message. rewrite Hsend.
    rewrite io_bind_perform_Return. simpl subscript. eval_lookups.
    reflexivity.
  - intros ack status Hsend Hres Hne Hmsg.
    apply py_eq_str_false in Hne.
    unfold matrix_to_zulip. rewrite Hr, Hf.
    rewrite !io_bind_lift_Return. fold request.
    unfold try_send_message. rewrite Hsend.
    rewrite io_bind_perform_Return. simpl subscript. eval_lookups.
    rewrite Hne. simpl negb. cbn iota. eval_lookups. reflexivity.
  - intros Hsend. unfold matrix_to_zulip. rewrite Hr, Hf.
    rewrite !io_bind_lift_Return. fold request.
    unfold try_send_message. rewrite Hsend. reflexivity.
Qed.

(** X6.  An event without a [content] field is never forwarded: the
    callback sends nothing and raises, either the exception of the
    renderer or, when the content was rendered, [KeyError] for
    ["content"]. *)
Theorem events_without_content_are_not_forwarded
    str client zcfg mcfg (event : gmap string pyval) :
  event !! "content" = None ->
  matrix_to_zulip str client zcfg mcfg event
  = (match get_message_content_from_event str event with
     | Return _ => Raise (KeyError "content")
     | Raise e => Raise e
     end, []).
Proof.
  intros Hc.
  destruct (get_message_content_from_event str event) as [content | e] eqn:Hr.
  - apply (callback_filter_raises str client zcfg mcfg event content); [ easy | ].
    unfold not_from_zulip_bot. eval_lookups. reflexivity.
  - now apply callback_render_raises.
Qed.

(** X7.  Whatever the message, the Zulip callback calls nothing on the
    Zulip client and sends at most one text to the room, and a text it
    sends has been printed just before. *)
Theorem zulip_callback_sends_at_most_one_text
    str zcfg room (msg : gmap string pyval) :
  zulip_sends (trace (zulip_to_matrix str zcfg room msg)) = [] /\
  (trace (zulip_to_matrix str zcfg room msg) = [] \/
   exists text,
     trace (zulip_to_matrix str zcfg room msg)
     = [Print text; MatrixSendText text]).
Proof.
  assert (Hshape :
    trace (zulip_to_matrix str zcfg room msg) = [] \/
    exists text,
      trace (zulip_to_matrix str zcfg room msg)
      = [Print text; MatrixSendText text]).
  { unfold zulip_to_matrix, getitem.
    destruct (msg !! "type") as [ty | ]; [ | now left ].
    rewrite io_bind_lift_Return.
    destruct (msg !! "sender_email") as [sender_email | ]; [ | now left ].
    rewrite io_bind_lift_Return.
    destruct (msg !! "display_recipient") as [recipient | ]; [ | now left ].
    rewrite io_bind_lift_Return.
    destruct (msg !! "subject") as [subject | ]; [ | now left ].
    rewrite io_bind_lift_Return.
    destruct (py_eq_str ty "stream" && negb (py_eq_str sender_email (zc_email zcfg))
              && py_eq_str recipient (zc_stream zcfg)
              && py_eq_str subject (zc_subject zcfg)); [ | now left ].
    destruct (msg !! "sender_full_name") as [full_name | ]; [ | now left ].
    rewrite io_bind_lift_Return.
    destruct (msg !! "content") as [content | ]; [ | now left ].
    rewrite io_bind_lift_Return.
    right. eexists. unfold emit, perform, mbind, io_bind, trace.
    reflexivity. }
  split; [ | exact Hshape ].
  destruct Hshape as [-> | [text ->]]; reflexivity.
Qed.

(** X8.  For a message that passes the four tests, the callback ends as
    [send_text] ends: it returns when the call returns and raises the
    exception of the call unchanged, after the one print and the one
    send. *)
Theorem zulip_to_matrix_ends_as_send_text
    str zcfg room (msg : gmap string pyval) sender_email full_name content :
  msg !! "type" = Some (VStr "stream") ->
  msg !! "sender_email" = Some sender_email ->
  sender_email <> VStr (zc_email zcfg) ->
  msg !! "display_recipient" = Some (VStr (zc_stream zcfg)) ->
  msg !! "subject" = Some (VStr (zc_subject zcfg)) ->
  msg !! "sender_full_name" = Some full_name ->
  msg !! "content" = Some content ->
  forall text,
    text = ("@**" +:+ py_format str full_name +:+ "**:"
            +:+ site_without_http zcfg)
           +:+ ": " +:+ py_format str content ->
    zulip_to_matrix str zcfg room msg
    = (room_send_text room text, [Print text; MatrixSendText text]).
Proof.
  intros Hty Hse Hne Hre Hsu Hfn Hco text ->.
  now apply (zulip_callback_relays str zcfg room msg sender_email).
Qed.

(** X9.  The four tests of the Zulip callback are all evaluated before
    any of them is used: a message that lacks [type], [sender_email],
    [display_recipient] or [subject] raises [KeyError] for the first of
    them that is missing, with no effect, whatever the other fields
    hold. *)
Theorem zulip_to_matrix_missing_routing_field
    str zcfg room (msg : gmap string pyval) :
  (msg !! "type" = None ->
   zulip_to_matrix str zcfg room msg = (Raise (KeyError "type"), [])) /\
  (is_Some (msg !! "type") ->
   msg !! "sender_email" = None ->
   zulip_to_matrix str zcfg room msg
   = (Raise (KeyError "sender_email"), [])) /\
  (is_Some (msg !! "type") ->
   is_Some (msg !! "sender_email") ->
   msg !! "display_recipient" = None ->
   zulip_to_matrix str zcfg room msg
   = (Raise (KeyError "display_recipient"), [])) /\
  (is_Some (msg !! "type") ->
   is_Some (msg !! "sender_email") ->
   is_Some (msg !! "display_recipient") ->
   msg !! "subject" = None ->
   zulip_to_matrix str zcfg room msg = (Raise (KeyError "subject"), [])).
Proof.
  split; [ | split; [ | split ] ].
  - intros Hty. unfold zulip_to_matrix. eval_lookups. reflexivity.
  - intros [ty Hty] Hse. unfold zulip_to_matrix. eval_lookups. reflexivity.
  - intros [ty Hty] [se Hse] Hre. unfold zulip_to_matrix. eval_lookups.
    reflexivity.
  - intros [ty Hty] [se Hse] [re Hre] Hsu. unfold zulip_to_matrix.
    eval_lookups. reflexivity.
Qed.

(** X10.  A message that passes the four tests but lacks
    [sender_full_name], or has it and lacks [content], raises [KeyError]
    for that field; nothing is printed and nothing is sent. *)
Theorem zulip_to_matrix_missing_payload_field
    str zcfg room (msg : gmap string pyval) sender_email :
  msg !! "type" = Some (VStr "stream") ->
  msg !! "sender_email" = Some sender_email ->
  sender_email <> VStr (zc_email zcfg) ->
  msg !! "display_recipient" = Some (VStr (zc_stream zcfg)) ->
  msg !! "subject" = Some (VStr (zc_subject zcfg)) ->
  (msg !! "sender_full_name" = None ->
   zulip_to_matrix str zcfg room msg
   = (Raise (KeyError "sender_full_name"), [])) /\
  (is_Some (msg !! "sender_full_name") ->
   msg !! "content" = None ->
   zulip_to_matrix str zcfg room msg = (Raise (KeyError "content"), [])).
Proof.
  intros Hty Hse Hne Hre Hsu. apply py_eq_str_false in Hne. split.
  - intros Hfn. unfold zulip_to_matrix. eval_lookups.
    rewrite !py_eq_str_refl, Hne. simpl andb. cbn iota.
    eval_lookups. reflexivity.
  - intros [full_name Hfn] Hco. unfold zulip_to_matrix. eval_lookups.
    rewrite !py_eq_str_refl, Hne. simpl andb. cbn iota.
    eval_lookups. reflexivity.
Qed.

(** X11.  With the client logged in under the configured address, as
    line 100 constructs it, nothing that the Matrix callback sends to
    Zulip comes back to the room: a Zulip message whose [sender_email]
    is the sender of such a request has no effect in the Zulip
    callback. *)
Theorem forwarded_events_are_not_relayed_back
    str client zcfg mcfg room (event msg request : gmap string pyval) :
  client_email client = zc_email zcfg ->
  request ∈ zulip_sends (trace (matrix_to_zulip str client zcfg mcfg event)) ->
  msg !! "sender_email" = request !! "sender" ->
  trace (zulip_to_matrix str zcfg room msg) = [].
Proof.
  intros Hemail Hin Hsender.
  destruct (callback_trace_cases str client zcfg mcfg event)
    as [Ht | [content Ht]]; rewrite Ht in Hin; simpl in Hin.
  - now apply elem_of_nil in Hin.
  - apply list_elem_of_singleton in Hin. subst request.
    destruct (zulip_request_fields client zcfg content) as (Hfrom & _).
    rewrite Hfrom, Hemail in Hsender.
    apply zulip_callback_skips. right. left. exact Hsender.
Qed.

(** ** The site *)

Lemma replace_from_length old skip s :
  (String.length (replace_from old "" skip s) <= String.length s)%nat.
Proof.
  revert skip. induction s as [ | c s IH]; intros skip; [ reflexivity | ].
  cbn [replace_from]. destruct skip as [ | skip ].
  - destruct (String.prefix old (String c s)).
    + change ("" +:+ replace_from old "" (String.length old - 1) s)
        with (replace_from old "" (String.length old - 1) s).
      cbn [String.length].
      specialize (IH (String.length old - 1)). lia.
    + cbn [String.length]. specialize (IH 0). lia.
  - cbn [String.length]. specialize (IH skip). lia.
Qed.

(** X12.  A configured site that contains neither ["https://"] nor
    ["http://"] is used in the mention as it is. *)
Theorem site_without_scheme_is_unchanged zcfg :
  str_contains "https://" (zc_site zcfg) = false ->
  str_contains "http://" (zc_site zcfg) = false ->
  site_without_http zcfg = zc_site zcfg.
Proof.
  intros Hs Hp. unfold site_without_http.
  rewrite (str_replace_absent "https://" "" (zc_site zcfg) Hs).
  now apply str_replace_absent.
Qed.

(** X13.  Removing the schemes never makes the site longer. *)
Theorem site_without_http_is_not_longer zcfg :
  (String.length (site_without_http zcfg) <= String.length (zc_site zcfg))%nat.
Proof.
  unfold site_without_http, str_replace.
  etransitivity; apply replace_from_length.
Qed.

(** * Further properties of the supervisor *)

(** X14.  Under any backoff policy: when the supervisor is still
    attempting after a list of ended attempts, it has called [fail], and
    so slept, once per attempt, also after an attempt that returned
    without an exception; it has printed one traceback per attempt that
    raised, and has started once more than attempts ended. *)
Theorem supervisor_backs_off_after_every_attempt
    {B : Type} `{Backoff B} (b : B) (attempts : list attempt) :
  fst (supervise b attempts) = Attempting ->
  length (List.filter is_sleep (snd (supervise b attempts)))
  = length attempts /\
  length (List.filter is_print_exc (snd (supervise b attempts)))
  = length (List.filter is_failure attempts) /\
  length (List.filter is_start (snd (supervise b attempts)))
  = S (length attempts).
Proof.
  revert b. induction attempts as [ | a rest IH]; intros b;
    simpl supervise; destruct (keep_going b); try discriminate.
  - intros _. now repeat split.
  - destruct a as [s e sustained jitter | sustained jitter | s ];
      try discriminate.
    + destruct (fail b sustained jitter) as [b' delay].
      specialize (IH b'). destruct (supervise b' rest) as [st t].
      simpl. intros Hst. destruct (IH Hst) as (Hsleep & Hexc & Hstart).
      simpl in Hsleep, Hexc, Hstart.
      destruct s; simpl; now rewrite Hsleep, Hexc, Hstart.
    + destruct (fail b sustained jitter) as [b' delay].
      specialize (IH b'). destruct (supervise b' rest) as [st t].
      simpl. intros Hst. destruct (IH Hst) as (Hsleep & Hexc & Hstart).
      simpl in Hsleep, Hexc, Hstart.
      now rewrite Hsleep, Hexc, Hstart.
Qed.

(** X15.  Under any backoff policy: an interrupt that arrives while the
    supervisor is attempting ends the process with status 1; after the
    prints of the interrupted attempt there is no traceback, no call of
    [fail] and no sleep, and later attempts do not happen. *)
Theorem interrupt_exits_the_supervisor
    {B : Type} `{Backoff B} (b : B) (attempts rest : list attempt) s :
  fst (supervise b attempts) = Attempting ->
  supervise b (attempts ++ Interrupted s :: rest)%list
  = (Exited 1, (snd (supervise b attempts) ++ stage_prints s)%list).
Proof.
  revert b. induction attempts as [ | a attempts IH]; intros b;
    simpl supervise; destruct (keep_going b); try discriminate.
  - reflexivity.
  - destruct a as [s0 e sustained jitter | sustained jitter | s0 ];
      try discriminate.
    + destruct (fail b sustained jitter) as [b' delay].
      specialize (IH b'). destruct (supervise b' attempts) as [st t].
      simpl. intros Hst. rewrite (IH Hst). simpl.
      now rewrite <- !app_assoc.
    + destruct (fail b sustained jitter) as [b' delay].
      specialize (IH b'). destruct (supervise b' attempts) as [st t].
      simpl. intros Hst. now rewrite (IH Hst).
Qed.

(** X16.  Under any backoff policy: once the supervisor has stopped or
    the process has exited, further attempts change neither the status
    nor the trace. *)
Theorem supervisor_does_not_resume
    {B : Type} `{Backoff B} (b : B) (attempts rest : list attempt) :
  fst (supervise b attempts) <> Attempting ->
  supervise b (attempts ++ rest)%list = supervise b attempts.
Proof.
  revert b. induction attempts as [ | a attempts IH]; intros b;
    simpl supervise.
  - destruct (keep_going b) eqn:Hkeep; [ now intros [] | ].
    intros _. destruct rest; simpl; now rewrite Hkeep.
  - destruct (keep_going b); [ | reflexivity ].
    destruct a as [s0 e sustained jitter | sustained jitter | s0 ];
      [ | | reflexivity ].
    + destruct (fail b sustained jitter) as [b' delay].
      specialize (IH b'). destruct (supervise b' attempts) as [st t].
      simpl. intros Hst. now rewrite (IH Hst).
    + destruct (fail b sustained jitter) as [b' delay].
      specialize (IH b'). destruct (supervise b' attempts) as [st t].
      simpl. intros Hst. now rewrite (IH Hst).
Qed.

(** * The further properties on the samples *)

Lemma other_events_are_forwarded_by_type_witness :
  trace (matrix_to_zulip str_unused accepting_client sample_zulip_config
           sample_matrix_config topic_event)
  = [ZulipSendMessage
       (zulip_request accepting_client sample_zulip_config
          (VStr "m.room.topic"))].
Proof.
  apply (other_events_are_forwarded_by_type str_unused accepting_client
           sample_zulip_config sample_matrix_config topic_event
           (list_to_map [("topic", VStr "news")]) (VStr "m.room.topic"));
    first [ discriminate | vm_compute; reflexivity ].
Defined.

Lemma matrix_to_zulip_returns_on_success_witness :
  matrix_to_zulip str_unused accepting_client sample_zulip_config
    sample_matrix_config bob_event
  = (Return tt,
     [ZulipSendMessage
        (zulip_request accepting_client sample_zulip_config
           (VStr "@bob:matrix.org: hi"))]).
Proof.
  apply (matrix_to_zulip_returns_on_success str_unused accepting_client
           sample_zulip_config sample_matrix_config bob_event
           (list_to_map [("result", VStr "success"); ("msg", VStr "")]));
    vm_compute; reflexivity.
Defined.

Lemma matrix_to_zulip_passes_other_exceptions_witness :
  matrix_to_zulip str_unused unreachable_client sample_zulip_config
    sample_matrix_config bob_event
  = (Raise (OtherError "ConnectionError"),
     [ZulipSendMessage
        (zulip_request unreachable_client sample_zulip_config
           (VStr "@bob:matrix.org: hi"))]).
Proof.
  apply (matrix_to_zulip_passes_other_exceptions str_unused
           unreachable_client sample_zulip_config sample_matrix_config
           bob_event (VStr "@bob:matrix.org: hi")
           (OtherError "ConnectionError"));
    first [ discriminate | vm_compute; reflexivity ].
Defined.

Lemma matrix_to_zulip_on_malformed_ack_witness :
  fst (matrix_to_zulip str_unused empty_ack_client sample_zulip_config
         sample_matrix_config bob_event)
  = Raise (KeyError "result") /\
  fst (matrix_to_zulip str_unused terse_ack_client sample_zulip_config
         sample_matrix_config bob_event)
  = Raise (KeyError "msg") /\
  fst (matrix_to_zulip str_unused null_ack_client sample_zulip_config
         sample_matrix_config bob_event)
  = Raise (TypeError "'NoneType' object is not subscriptable").
Proof.
  assert (Hrender : get_message_content_from_event str_unused bob_event
                    = Return (VStr "@bob:matrix.org: hi"))
    by (vm_compute; reflexivity).
  assert (Hfilter : not_from_zulip_bot sample_matrix_config bob_event
                    = Return true)
    by (vm_compute; reflexivity).
  destruct (matrix_to_zulip_on_malformed_ack str_unused empty_ack_client
              sample_zulip_config sample_matrix_config bob_event
              (VStr "@bob:matrix.org: hi") Hrender Hfilter)
    as (Hno_result & _ & _).
  destruct (matrix_to_zulip_on_malformed_ack str_unused terse_ack_client
              sample_zulip_config sample_matrix_config bob_event
              (VStr "@bob:matrix.org: hi") Hrender Hfilter)
    as (_ & Hno_msg & _).
  destruct (matrix_to_zulip_on_malformed_ack str_unused null_ack_client
              sample_zulip_config sample_matrix_config bob_event
              (VStr "@bob:matrix.org: hi") Hrender Hfilter)
    as (_ & _ & Hnull).
  split; [ | split ].
  - rewrite (Hno_result ∅); [ reflexivity | reflexivity | ].
    vm_compute; reflexivity.
  - rewrite (Hno_msg (list_to_map [("result", VStr "error")]) (VStr "error"));
      [ reflexivity | reflexivity | vm_compute; reflexivity | discriminate
      | vm_compute; reflexivity ].
  - rewrite Hnull; reflexivity.
Defined.

Lemma events_without_content_are_not_forwarded_witness :
  matrix_to_zulip str_unused accepting_client sample_zulip_config
    sample_matrix_config bare_join_event
  = (Raise (KeyError "content"), []).
Proof.
  assert (Hrender : get_message_content_from_event str_unused bare_join_event
                    = Return (VStr "@bob:matrix.org joined"))
    by (vm_compute; reflexivity).
  rewrite (events_without_content_are_not_forwarded str_unused
             accepting_client sample_zulip_config sample_matrix_config
             bare_join_event);
    [ | vm_compute; reflexivity ].
  rewrite Hrender. reflexivity.
Defined.

Lemma zulip_to_matrix_ends_as_send_text_witness :
  zulip_to_matrix str_unused sample_zulip_config forbidden_room stream_message
  = (Raise (MatrixRequestError 403 "Forbidden"),
     [Print "@**alice**:host: hello"; MatrixSendText "@**alice**:host: hello"]).
Proof.
  assert (Hne : VStr "alice@host" <> VStr (zc_email sample_zulip_config))
    by discriminate.
  apply (zulip_to_matrix_ends_as_send_text str_unused sample_zulip_config
           forbidden_room stream_message (VStr "alice@host") (VStr "alice")
           (VStr "hello") eq_refl eq_refl Hne eq_refl eq_refl eq_refl eq_refl
           "@**alice**:host: hello").
  vm_compute; reflexivity.
Defined.

Lemma zulip_to_matrix_missing_routing_field_witness :
  zulip_to_matrix str_unused sample_zulip_config sample_room
    message_without_subject
  = (Raise (KeyError "subject"), []).
Proof.
  destruct (zulip_to_matrix_missing_routing_field str_unused
              sample_zulip_config sample_room message_without_subject)
    as (_ & _ & _ & Hsubject).
  apply Hsubject.
  - exists (VStr "private"). vm_compute; reflexivity.
  - exists (VStr "alice@host"). vm_compute; reflexivity.
  - exists (VList []). vm_compute; reflexivity.
  - vm_compute; reflexivity.
Defined.

Lemma zulip_to_matrix_missing_payload_field_witness :
  zulip_to_matrix str_unused sample_zulip_config sample_room
    message_without_name
  = (Raise (KeyError "sender_full_name"), []) /\
  zulip_to_matrix str_unused sample_zulip_config sample_room
    message_without_content
  = (Raise (KeyError "content"), []).
Proof.
  assert (Hne : VStr "alice@host" <> VStr (zc_email sample_zulip_config))
    by discriminate.
  destruct (zulip_to_matrix_missing_payload_field str_unused
              sample_zulip_config sample_room message_without_name
              (VStr "alice@host") eq_refl eq_refl Hne eq_refl eq_refl)
    as (Hname & _).
  destruct (zulip_to_matrix_missing_payload_field str_unused
              sample_zulip_config sample_room message_without_content
              (VStr "alice@host") eq_refl eq_refl Hne eq_refl eq_refl)
    as (_ & Hcontent).
  split.
  - apply Hname. vm_compute; reflexivity.
  - apply Hcontent.
    + exists (VStr "alice"). vm_compute; reflexivity.
    + vm_compute; reflexivity.
Defined.

(** What the bridge forwards for bob comes back as a message of the
    bot, and that message is not relayed to the room. *)
Lemma forwarded_events_are_not_relayed_back_witness :
  trace (zulip_to_matrix str_unused sample_zulip_config sample_room
           own_message)
  = [].
Proof.
  assert (Hsends :
    zulip_sends
      (trace (matrix_to_zulip str_unused accepting_client sample_zulip_config
                sample_matrix_config bob_event))
    = [zulip_request accepting_client sample_zulip_config
         (VStr "@bob:matrix.org: hi")])
    by (vm_compute; reflexivity).
  apply (forwarded_events_are_not_relayed_back str_unused accepting_client
           sample_zulip_config sample_matrix_config sample_room bob_event
           own_message
           (zulip_request accepting_client sample_zulip_config
              (VStr "@bob:matrix.org: hi"))).
  - reflexivity.
  - rewrite Hsends. apply list_elem_of_singleton. reflexivity.
  - vm_compute; reflexivity.
Defined.

Lemma site_without_scheme_is_unchanged_witness :
  site_without_http
    {| zc_email := "bridge-bot@host"; zc_api_key := "secret";
       zc_site := "chat.example.org"; zc_stream := "mirror";
       zc_subject := "general" |}
  = "chat.example.org".
Proof.
  apply (site_without_scheme_is_unchanged
           {| zc_email := "bridge-bot@host"; zc_api_key := "secret";
              zc_site := "chat.example.org"; zc_stream := "mirror";
              zc_subject := "general" |});
    vm_compute; reflexivity.
Defined.

Lemma supervisor_backs_off_after_every_attempt_witness :
  length (List.filter is_sleep
            (snd (supervise (new_backoff 300) mixed_attempts))) = 3 /\
  length (List.filter is_print_exc
            (snd (supervise (new_backoff 300) mixed_attempts))) = 2 /\
  length (List.filter is_start
            (snd (supervise (new_backoff 300) mixed_attempts))) = 4.
Proof.
  apply (supervisor_backs_off_after_every_attempt (new_backoff 300)
           mixed_attempts).
  vm_compute; reflexivity.
Defined.

Lemma interrupt_exits_the_supervisor_witness :
  fst (supervise (new_backoff 300)
         (mixed_attempts ++ Interrupted StartingListener :: twelve_failures)%list)
  = Exited 1.
Proof.
  rewrite (interrupt_exits_the_supervisor (new_backoff 300) mixed_attempts
             twelve_failures StartingListener).
  - reflexivity.
  - vm_compute; reflexivity.
Defined.

Lemma supervisor_does_not_resume_witness :
  supervise (new_backoff 300)
    ([Interrupted Connecting] ++ twelve_failures)%list
  = supervise (new_backoff 300) [Interrupted Connecting].
Proof.
  apply (supervisor_does_not_resume (new_backoff 300)
           [Interrupted Connecting] twelve_failures).
  discriminate.
Defined.
